(** * RiskAdvisor: the portfolio risk metrics engine

    A shallow embedding of [app/utils/calculations.py], of the scenario
    arithmetic of [app/agents/scenario_agent.py] and of the recommendation
    rule table of [app/agents/stock_analyzer_agent.py], with the properties
    the specification states about them.

    Numbers.  A Python [float] is modelled by an extended rational
    ([PyFloat.float]): a finite value is an exact rational, so rounding error
    and overflow of binary64 are abstracted away, and the three non-finite
    values of IEEE 754 (+inf, -inf, NaN) are kept, because numpy's array
    division produces them where Python's scalar division raises.  Signed
    zeros are identified.  Python's [int] and [float] are not told apart.
    What depends on how a result is rounded is stated on binary64 itself
    ([Binary64]), with the operations of IEEE 754 as [SpecFloat] defines
    them.

    Exceptions.  A Python function that can raise returns a [Py.result].

    Text.  An f-string is kept as the list of its pieces ([Py.fstring]):
    the literal parts and the interpolated values with their format
    specifications; number formatting itself is not modelled. *)

From Stdlib Require Import List String Ascii Bool Arith ZArith QArith Qround Qabs.
From Stdlib Require Import Lia Lqa Sorted Permutation.
From Stdlib Require SpecFloat.
Import ListNotations.

Local Open Scope Q_scope.

(** ** Python floats *)

Module PyFloat.

Inductive float : Type :=
| Fin (q : Q)
| PInf
| NInf
| NaN.

Definition Qlt_bool (a b : Q) : bool := negb (Qle_bool b a).

Definition is_finite (x : float) : bool :=
  match x with Fin _ => true | _ => false end.

Definition is_nan (x : float) : bool :=
  match x with NaN => true | _ => false end.

(** Same value: rationals up to [==], NaN related to itself.  This is the
    identity of values, not Python's [==] (see [feqb]). *)
Definition feq (x y : float) : Prop :=
  match x, y with
  | Fin a, Fin b => a == b
  | PInf, PInf | NInf, NInf | NaN, NaN => True
  | _, _ => False
  end.

(** Python's comparison operators: every comparison with NaN is false. *)
Definition flt (x y : float) : bool :=
  match x, y with
  | NaN, _ | _, NaN => false
  | Fin a, Fin b => Qlt_bool a b
  | NInf, NInf => false
  | NInf, _ => true
  | _, PInf => match x with PInf => false | _ => true end
  | _, _ => false
  end.

Definition fle (x y : float) : bool :=
  match x, y with
  | NaN, _ | _, NaN => false
  | Fin a, Fin b => Qle_bool a b
  | NInf, _ => true
  | _, PInf => true
  | _, _ => false
  end.

Definition fgt (x y : float) : bool := flt y x.
Definition fge (x y : float) : bool := fle y x.

Definition feqb (x y : float) : bool :=
  match x, y with
  | Fin a, Fin b => Qeq_bool a b
  | PInf, PInf | NInf, NInf => true
  | _, _ => false
  end.

Definition fneg (x : float) : float :=
  match x with
  | Fin a => Fin (- a)
  | PInf => NInf
  | NInf => PInf
  | NaN => NaN
  end.

Definition fabs (x : float) : float :=
  match x with
  | Fin a => Fin (Qabs a)
  | PInf | NInf => PInf
  | NaN => NaN
  end.

Definition fadd (x y : float) : float :=
  match x, y with
  | NaN, _ | _, NaN => NaN
  | Fin a, Fin b => Fin (a + b)
  | PInf, NInf | NInf, PInf => NaN
  | PInf, _ | _, PInf => PInf
  | NInf, _ | _, NInf => NInf
  end.

Definition fsub (x y : float) : float := fadd x (fneg y).

(** The sign of a rational as an infinity, NaN at zero. *)
Definition inf_of_sign (a : Q) : float :=
  match Qnum a with
  | Z0 => NaN
  | Zpos _ => PInf
  | Zneg _ => NInf
  end.

Definition fmul (x y : float) : float :=
  match x, y with
  | NaN, _ | _, NaN => NaN
  | Fin a, Fin b => Fin (a * b)
  | Fin a, PInf | PInf, Fin a => inf_of_sign a
  | Fin a, NInf | NInf, Fin a => inf_of_sign (- a)
  | PInf, PInf | NInf, NInf => PInf
  | PInf, NInf | NInf, PInf => NaN
  end.

(** IEEE division, as numpy's [/] on arrays performs it: a finite non-zero
    value over zero is an infinity, zero over zero is NaN; nothing raises. *)
Definition fdiv (x y : float) : float :=
  match x, y with
  | NaN, _ | _, NaN => NaN
  | Fin a, Fin b => if Qeq_bool b 0 then inf_of_sign a else Fin (a / b)
  | Fin _, PInf | Fin _, NInf => Fin 0
  | PInf, Fin b => if Qlt_bool b 0 then NInf else PInf
  | NInf, Fin b => if Qlt_bool b 0 then PInf else NInf
  | _, _ => NaN
  end.

End PyFloat.
Export PyFloat.

Declare Scope float_scope.
Delimit Scope float_scope with float.
Bind Scope float_scope with float.
Infix "+" := fadd : float_scope.
Infix "-" := fsub : float_scope.
Infix "*" := fmul : float_scope.
Infix "/" := fdiv : float_scope.
Infix "<?" := flt : float_scope.
Infix "<=?" := fle : float_scope.
Infix ">?" := fgt (at level 70) : float_scope.
Infix ">=?" := fge (at level 70) : float_scope.
Coercion Fin : Q >-> float.

Local Open Scope string_scope.

(** ** Python built-ins *)

Module Py.

(** The exceptions the modelled code can raise. *)
Inductive exn : Type :=
| ValueError
| ZeroDivisionError.

Inductive result (A : Type) : Type :=
| Ok (a : A)
| Raise (e : exn).
Arguments Ok {A} a.
Arguments Raise {A} e.

Definition bind {A B : Type} (m : result A) (k : A -> result B) : result B :=
  match m with
  | Ok a => k a
  | Raise e => Raise e
  end.

(** [a / b] on Python scalars: a zero divisor raises. *)
Definition truediv (a b : float) : result float :=
  match b with
  | Fin q => if Qeq_bool q 0 then Raise ZeroDivisionError else Ok (a / b)%float
  | _ => Ok (a / b)%float
  end.

(** [min(a, b)] and [max(a, b)]: the first argument is kept unless the
    second is strictly smaller (larger); with a NaN no comparison holds. *)
Definition min2 (a b : float) : float := if (b <? a)%float then b else a.
Definition max2 (a b : float) : float := if (b >? a)%float then b else a.

(** [min(iterable)] over lengths: an empty iterable raises [ValueError]. *)
Definition min_nat (l : list nat) : result nat :=
  match l with
  | [] => Raise ValueError
  | n :: l' => Ok (fold_left Nat.min l' n)
  end.

(** [min(iterable, key=...)]: a linear scan that replaces the candidate only
    by an item whose key is strictly smaller, so the first minimum wins. *)
Definition min_by {A : Type} (key : A -> float) (l : list A) : result A :=
  match l with
  | [] => Raise ValueError
  | x :: l' =>
      Ok (fold_left (fun best y => if (key y <? key best)%float then y else best) l' x)
  end.

(** [sum(iterable)]: left to right from 0. *)
Definition sum (l : list float) : float := fold_left fadd l (Fin 0).

(** Rounding to the nearest integer, ties to even. *)
Definition round_half_even (q : Q) : Z :=
  let f := Qfloor q in
  match ((q - inject_Z f) * 2 ?= 1)%Q with
  | Lt => f
  | Gt => (f + 1)%Z
  | Eq => if Z.even f then f else (f + 1)%Z
  end.

Definition pow10 (n : nat) : Q := inject_Z (10 ^ Z.of_nat n).

(** [round(x, ndigits)]: the decimal with [ndigits] places nearest to [x],
    ties to even; infinities and NaN round to themselves. *)
Definition round (x : float) (ndigits : nat) : float :=
  match x with
  | Fin q => Fin (inject_Z (round_half_even (q * pow10 ndigits)) / pow10 ndigits)
  | _ => x
  end.

(** [str.upper()] on ASCII text. *)
Definition upper_ascii (c : ascii) : ascii :=
  let n := nat_of_ascii c in
  if ((97 <=? n) && (n <=? 122))%nat then ascii_of_nat (n - 32) else c.

Fixpoint upper (s : string) : string :=
  match s with
  | EmptyString => EmptyString
  | String c s' => String (upper_ascii c) (upper s')
  end.

(** [s in [...]] on a list of strings. *)
Definition str_in (s : string) (l : list string) : bool :=
  existsb (String.eqb s) l.

(** The pieces of an f-string. *)
Inductive piece : Type :=
| Lit (s : string)                  (* literal text *)
| Str (s : string)                  (* {s} *)
| Num (spec : string) (x : float).  (* {x:spec} *)

Definition fstring : Type := list piece.

End Py.
Export Py(exn(..), result(..), piece(..), fstring).

Notation "x <- m ;; k" := (Py.bind m (fun x => k))
  (at level 61, m at next level, right associativity).

(** ** numpy *)

Module Np.

(** [np.diff(a)]: [a[i+1] - a[i]]. *)
Fixpoint diff (a : list float) : list float :=
  match a with
  | [] => []
  | x :: t => match t with
              | [] => []
              | y :: _ => (y - x)%float :: diff t
              end
  end.

(** Element-wise binary operation on two arrays of the same length. *)
Fixpoint zip_with {A B C : Type} (f : A -> B -> C) (a : list A) (b : list B) : list C :=
  match a, b with
  | x :: a', y :: b' => f x y :: zip_with f a' b'
  | _, _ => []
  end.

(** [np.sum(a)], [a.sum()]. *)
Definition sum (a : list float) : float := fold_left fadd a (Fin 0).

(** [np.mean(a)]: the sum over the number of elements (NaN when empty). *)
Definition mean (a : list float) : float :=
  (sum a / Fin (inject_Z (Z.of_nat (List.length a))))%float.

(** [np.nan_to_num(x, nan=0.0)]: NaN becomes [nan], the infinities become
    the largest and smallest finite binary64 values. *)
Definition float_max : Q := inject_Z ((2 ^ 53 - 1) * 2 ^ 971).

Definition nan_to_num (nan : float) (x : float) : float :=
  match x with
  | NaN => nan
  | PInf => Fin float_max
  | NInf => Fin (- float_max)
  | Fin _ => x
  end.

(** [np.clip(x, lo, hi)]: [minimum(maximum(x, lo), hi)], NaN propagates. *)
Definition clip (lo hi x : float) : float :=
  match x with
  | NaN => NaN
  | _ => let m := if (x <? lo)%float then lo else x in
         if (hi <? m)%float then hi else m
  end.

Section Sqrt.

(** [np.sqrt]: the one operation without an exact rational counterpart.  It
    stays a parameter; nothing is assumed about it. *)
Variable sqrt : float -> float.

(** [np.var(a)] with the default [ddof = 0]: the mean of the squared
    deviations from the mean; [np.std] is its square root. *)
Definition var (a : list float) : float :=
  let arrmean := mean a in
  let x := map (fun v => v - arrmean)%float a in
  mean (map (fun v => v * v)%float x).

Definition std (a : list float) : float := sqrt (var a).

(** [np.dot] of two rows. *)
Definition dot (a b : list float) : float := sum (zip_with fmul a b).

(** [np.cov(m)] with the default [ddof = 1]: rows are variables, the
    normalisation factor is [N - 1], set to 0 when that is not positive. *)
Definition cov (m : list (list float)) : list (list float) :=
  let X := map (fun row => let avg := mean row in map (fun v => v - avg)%float row) m in
  let N := match m with [] => 0%nat | row :: _ => List.length row end in
  let fact := if (N <=? 1)%nat then Fin 0 else Fin (inject_Z (Z.of_nat N) - 1) in
  map (fun xi => map (fun xj => (dot xi xj * (Fin 1 / fact))%float) X) X.

(** [np.corrcoef(m)]: the covariance matrix divided by the standard
    deviations of its rows and columns, then clipped to [-1, 1]. *)
Definition corrcoef (m : list (list float)) : list (list float) :=
  let c := cov m in
  let d := map (fun i => nth i (nth i c []) NaN) (seq 0 (List.length c)) in
  let stddev := map sqrt d in
  let c1 := zip_with (fun row s => map (fun v => v / s)%float row) c stddev in
  let c2 := map (fun row => zip_with fdiv row stddev) c1 in
  map (map (clip (Fin (-1)) (Fin 1))) c2.

End Sqrt.

(** A square root that computes, for running the model on concrete inputs:
    the root of a non-negative rational truncated to 15 decimal places.  The
    properties below hold for every [sqrt] and do not rely on it. *)
Definition sqrt15 (x : float) : float :=
  match x with
  | Fin q =>
      if Qlt_bool q 0 then NaN
      else Fin (Z.sqrt (Qfloor (q * inject_Z (10 ^ 30))) # 10 ^ 15)
  | PInf => PInf
  | NInf | NaN => NaN
  end.

End Np.

(** ** app/utils/calculations.py *)

Module Calculations.

Definition calculate_returns (prices : list float) : list float :=
  if (List.length prices <? 2)%nat then []
  else Np.zip_with fdiv (Np.diff prices) (removelast prices).

Definition calculate_hhi (weights : list float) : float :=
  match weights with
  | [] => Fin 0
  | _ =>
      let total := Np.sum weights in
      if (total >? Fin 0)%float then
        let weights_arr := map (fun w => w / total)%float weights in
        Np.sum (map (fun w => w * w)%float weights_arr)
      else Fin 0
  end.

(** The default of the [weights] argument of [calculate_risk_score]. *)
Definition default_weights : float * float * float :=
  (Fin (5 # 10), Fin (3 # 10), Fin (2 # 10)).

Definition calculate_risk_score (volatility concentration correlation : float)
    (weights : float * float * float) : float :=
  let '(w_vol, w_conc, w_corr) := weights in
  let norm_volatility := Py.min2 volatility (Fin 1) in
  let raw_score :=
    (w_vol * norm_volatility + w_conc * concentration + w_corr * correlation)%float in
  let scaled_score := (Fin 1 + raw_score * Fin 9)%float in
  Py.round (Py.max2 (Fin 1) (Py.min2 (Fin 10) scaled_score)) 2.

(** A holding is a dict read with [.get(key, default)]: a missing key is
    [None]. *)
Record holding : Type := {
  symbol : option string;
  quantity : option float;
  current_price : option float;
  historical_prices : option (list float)
}.

Definition get {A : Type} (field : option A) (default : A) : A :=
  match field with Some v => v | None => default end.

(** [{**holding, "value": value}], later given its ["weight"]. *)
Record holding_with_value : Type := {
  base : holding;
  value : float;
  weight : float
}.

Record holding_analysis : Type := {
  ha_symbol : option string;
  ha_value : float;
  ha_weight : float;
  ha_individual_volatility : float
}.

Record risk_breakdown : Type := {
  rb_volatility : float;
  rb_concentration : float;
  rb_correlation_risk : float
}.

(** The two shapes of the dict [analyze_portfolio_risk] returns. *)
Inductive risk_analysis : Type :=
| EmptyPortfolio (risk_score volatility concentration correlation_risk : float)
    (error : string)
| RiskAnalysis (risk_score : float) (breakdown : risk_breakdown)
    (total_value : float) (holdings_analysis : list holding_analysis).

(** A [for] loop that appends one item per element and stops at the first
    exception. *)
Fixpoint mapM {A B : Type} (f : A -> result B) (l : list A) : result (list B) :=
  match l with
  | [] => Ok []
  | x :: l' => y <- f x ;; ys <- mapM f l' ;; Ok (y :: ys)
  end.

(** The truth value of a list ([if l:]). *)
Definition nonempty {A : Type} (l : list A) : bool :=
  match l with [] => false | _ => true end.

(** The first loop of [analyze_portfolio_risk]: the value of a holding and
    the running total. *)
Definition holding_value (h : holding) : float :=
  (get (current_price h) (Fin 0) * get (quantity h) (Fin 0))%float.

Definition portfolio_total_value (enriched_holdings : list holding) : float :=
  fold_left fadd (map holding_value enriched_holdings) (Fin 0).

Section Sqrt.

Variable sqrt : float -> float.

Definition calculate_volatility (prices : list float) : float :=
  let returns := calculate_returns prices in
  if (List.length returns <? 2)%nat then Fin 0
  else
    let daily_vol := Np.std sqrt returns in
    (daily_vol * sqrt (Fin 252))%float.

Definition calculate_correlation (returns_matrix : list (list float)) : result float :=
  if (List.length returns_matrix <? 2)%nat then Ok (Fin 0)
  else
    min_len <- Py.min_nat (map (@List.length float) (filter nonempty returns_matrix)) ;;
    if (min_len <? 2)%nat then Ok (Fin 0)
    else
      let trimmed := map (firstn min_len) (filter nonempty returns_matrix) in
      if (List.length trimmed <? 2)%nat then Ok (Fin 0)
      else
        let corr_matrix := map (map (Np.nan_to_num (Fin 0))) (Np.corrcoef sqrt trimmed) in
        let n := List.length corr_matrix in
        let upper_triangle :=
          flat_map (fun i =>
            map (fun j => fabs (nth j (nth i corr_matrix []) NaN))
                (seq (i + 1) (n - (i + 1))))
            (seq 0 n) in
        if nonempty upper_triangle then Ok (Np.mean upper_triangle)
        else Ok (Fin 0).

Definition analyze_portfolio_risk (enriched_holdings : list holding)
    : result risk_analysis :=
  if negb (nonempty enriched_holdings) then
    Ok (EmptyPortfolio (Fin 0) (Fin 0) (Fin 0) (Fin 0) "Empty portfolio")
  else
    let total_value := portfolio_total_value enriched_holdings in
    holdings_with_value <-
      mapM (fun h =>
              let v := holding_value h in
              w <- (if (total_value >? Fin 0)%float then Py.truediv v total_value
                    else Ok (Fin 0)) ;;
              Ok {| base := h; value := v; weight := w |})
           enriched_holdings ;;
    let weights := map weight holdings_with_value in
    let individual_volatilities :=
      flat_map (fun h =>
                  let prices := get (historical_prices (base h)) [] in
                  if nonempty prices
                  then [(calculate_volatility prices * weight h)%float]
                  else [])
               holdings_with_value in
    let all_returns :=
      flat_map (fun h =>
                  let prices := get (historical_prices (base h)) [] in
                  if nonempty prices && nonempty (calculate_returns prices)
                  then [calculate_returns prices]
                  else [])
               holdings_with_value in
    let portfolio_volatility :=
      if nonempty individual_volatilities then Py.sum individual_volatilities
      else Fin 0 in
    let concentration := calculate_hhi weights in
    correlation_risk <- calculate_correlation all_returns ;;
    let risk_score :=
      calculate_risk_score portfolio_volatility concentration correlation_risk
        default_weights in
    Ok (RiskAnalysis risk_score
          {| rb_volatility := Py.round portfolio_volatility 4;
             rb_concentration := Py.round concentration 4;
             rb_correlation_risk := Py.round correlation_risk 4 |}
          (Py.round total_value 2)
          (map (fun h =>
                  {| ha_symbol := symbol (base h);
                     ha_value := Py.round (value h) 2;
                     ha_weight := Py.round (weight h * Fin 100)%float 2;
                     ha_individual_volatility :=
                       Py.round
                         (calculate_volatility (get (historical_prices (base h)) []))
                         4 |})
               holdings_with_value)).

End Sqrt.

End Calculations.

(** ** app/utils/calculations.py in binary64

    [calculate_hhi] once more, on the floats numpy computes with: 53 bits of
    precision, every operation rounded to the nearest float, ties to even,
    overflow to an infinity.  The order in which [ndarray.sum] adds is
    numpy's affair, so the function takes the sum as a parameter. *)

Module Binary64.

Import SpecFloat.

Definition prec : Z := 53.
Definition emax : Z := 1024.

Definition zero : spec_float := S754_zero false.

Definition mul : spec_float -> spec_float -> spec_float := SFmul prec emax.
Definition div : spec_float -> spec_float -> spec_float := SFdiv prec emax.

Definition eqb : spec_float -> spec_float -> bool := SFeqb.
Definition gtb (x y : spec_float) : bool := SFltb y x.


Definition is_finite (x : spec_float) : bool :=
  match x with
  | S754_zero _ | S754_finite _ _ _ => true
  | _ => false
  end.


Section Sum.

Variable np_sum : list spec_float -> spec_float.

Definition calculate_hhi (weights : list spec_float) : spec_float :=
  match weights with
  | [] => zero
  | _ =>
      let total := np_sum weights in
      if gtb total zero then
        let weights_arr := map (fun w => div w total) weights in
        np_sum (map (fun w => mul w w) weights_arr)
      else zero
  end.

End Sum.

End Binary64.

(** ** app/agents/scenario_agent.py *)

Module ScenarioAgent.

Record scenario_result : Type := {
  scenario : fstring;
  scenario_type : string;
  current_value : float;
  new_value : float;
  current_risk_score : float;
  new_risk_score : float;
  risk_change : float;
  impact : string;
  analysis : fstring
}.

Definition simulate_scenario (scenario_type : string)
    (current_portfolio_value current_risk_score : float)
    (stock_symbol : string) (change_amount : float) : result scenario_result :=
  if scenario_type =? "add_stock" then
    let new_value := (current_portfolio_value + change_amount)%float in
    weight_change <- Py.truediv change_amount new_value ;;
    let risk_change :=
      if Py.str_in (Py.upper stock_symbol) ["SPY"; "VTI"; "QQQ"] then Fin (- (8 # 10))
      else if Py.str_in (Py.upper stock_symbol) ["TSLA"; "NVDA"; "COIN"] then Fin (6 # 10)
      else Fin (2 # 10) in
    let new_risk :=
      Py.round (Py.min2 (Fin 10) (Py.max2 (Fin 1) (current_risk_score + risk_change)%float)) 2 in
    Ok {| scenario := [Lit "Add $"; Num ",.0f" change_amount; Lit " to "; Str stock_symbol];
          scenario_type := scenario_type;
          current_value := current_portfolio_value;
          new_value := new_value;
          current_risk_score := current_risk_score;
          new_risk_score := new_risk;
          risk_change := Py.round risk_change 2;
          impact := if (risk_change <? Fin 0)%float then "POSITIVE"
                    else if (risk_change >? Fin (3 # 10))%float then "NEGATIVE"
                    else "NEUTRAL";
          analysis := [Lit "Adding "; Str stock_symbol;
                       Lit " would change portfolio value to $"; Num ",.2f" new_value;
                       Lit " and ";
                       Str (if (risk_change <? Fin 0)%float then "reduce" else "increase");
                       Lit " risk by "; Num ".1f" (fabs risk_change); Lit " points."] |}
  else if scenario_type =? "remove_stock" then
    let new_value := (current_portfolio_value - change_amount)%float in
    let risk_change :=
      if (current_portfolio_value >? Fin 0)%float then Fin (3 # 10) else Fin 0 in
    let new_risk :=
      Py.round (Py.min2 (Fin 10) (Py.max2 (Fin 1) (current_risk_score + risk_change)%float)) 2 in
    Ok {| scenario := [Lit "Sell "; Str stock_symbol; Lit " ($"; Num ",.0f" change_amount;
                       Lit ")"];
          scenario_type := scenario_type;
          current_value := current_portfolio_value;
          new_value := Py.max2 (Fin 0) new_value;
          current_risk_score := current_risk_score;
          new_risk_score := new_risk;
          risk_change := Py.round risk_change 2;
          impact := "CAUTIONARY";
          analysis := [Lit "Selling "; Str stock_symbol; Lit " would reduce portfolio to $";
                       Num ",.2f" new_value;
                       Lit ". Consider the concentration impact on remaining positions."] |}
  else if scenario_type =? "increase_position" then
    let new_value := (current_portfolio_value + change_amount)%float in
    let risk_change := Fin (4 # 10) in
    let new_risk :=
      Py.round (Py.min2 (Fin 10) (Py.max2 (Fin 1) (current_risk_score + risk_change)%float)) 2 in
    Ok {| scenario := [Lit "Increase "; Str stock_symbol; Lit " by $";
                       Num ",.0f" change_amount];
          scenario_type := scenario_type;
          current_value := current_portfolio_value;
          new_value := new_value;
          current_risk_score := current_risk_score;
          new_risk_score := new_risk;
          risk_change := Py.round risk_change 2;
          impact := "CAUTIONARY";
          analysis := [Lit "Increasing position in "; Str stock_symbol; Lit " would add $";
                       Num ",.0f" change_amount;
                       Lit " but also increase concentration risk."] |}
  else
    let new_value := (current_portfolio_value - change_amount)%float in
    let risk_change := Fin (- (2 # 10)) in
    let new_risk :=
      Py.round (Py.min2 (Fin 10) (Py.max2 (Fin 1) (current_risk_score + risk_change)%float)) 2 in
    Ok {| scenario := [Lit "Decrease "; Str stock_symbol; Lit " by $";
                       Num ",.0f" change_amount];
          scenario_type := scenario_type;
          current_value := current_portfolio_value;
          new_value := Py.max2 (Fin 0) new_value;
          current_risk_score := current_risk_score;
          new_risk_score := new_risk;
          risk_change := Py.round risk_change 2;
          impact := "POSITIVE";
          analysis := [Lit "Reducing "; Str stock_symbol;
                       Lit " position could improve diversification and lower concentration risk."] |}.

Definition get_scenario_recommendation (scenarios : list scenario_result)
    : result fstring :=
  best_scenario <- Py.min_by new_risk_score scenarios ;;
  Ok ([Lit "Based on analysis, '"] ++ scenario best_scenario ++
      [Lit "' would result in the most favorable risk profile (Risk Score: ";
       Num "" (new_risk_score best_scenario); Lit ")."])%list.

Record scenario_comparison : Type := {
  scenarios : list scenario_result;
  recommendation : fstring
}.

Definition run_multiple_scenarios (portfolio_value risk_score : float)
    (largest_holding : string) (largest_holding_value : float)
    : result scenario_comparison :=
  s1 <- simulate_scenario "add_stock" portfolio_value risk_score "SPY" (Fin 10000) ;;
  s2 <- simulate_scenario "increase_position" portfolio_value risk_score
          largest_holding (Fin 5000) ;;
  s3 <- simulate_scenario "decrease_position" portfolio_value risk_score
          largest_holding (largest_holding_value * Fin (3 # 10))%float ;;
  let scenarios := [s1; s2; s3] in
  r <- get_scenario_recommendation scenarios ;;
  Ok {| scenarios := scenarios; recommendation := r |}.

End ScenarioAgent.

(** ** app/agents/stock_analyzer_agent.py *)

Module StockAnalyzerAgent.

Record stock_recommendation : Type := {
  symbol : string;
  recommendation : string;
  confidence : string;
  action : fstring;
  reasons : list fstring
}.

Definition generate_stock_recommendation (symbol : string)
    (risk_score gain_loss_percent portfolio_weight volatility : float)
    : stock_recommendation :=
  let symbol := Py.upper symbol in
  let reasons : list fstring := [] in
  (* SELL signals *)
  let sell_signals := 0%nat in
  let '(sell_signals, reasons) :=
    if (risk_score >=? Fin 7)%float
    then (S sell_signals, (reasons ++ [[Lit "High risk score ("; Num "" risk_score; Lit "/10)"]])%list)
    else (sell_signals, reasons) in
  let '(sell_signals, reasons) :=
    if (gain_loss_percent <? Fin (-15))%float
    then (S sell_signals,
          (reasons ++ [[Lit "Significant loss ("; Num ".1f" gain_loss_percent; Lit "%)"]])%list)
    else (sell_signals, reasons) in
  let '(sell_signals, reasons) :=
    if (portfolio_weight >? Fin 35)%float
    then (S sell_signals,
          (reasons ++ [[Lit "Over-concentrated ("; Num ".1f" portfolio_weight;
                       Lit "% of portfolio)"]])%list)
    else (sell_signals, reasons) in
  let '(sell_signals, reasons) :=
    if (volatility >? Fin 45)%float
    then (S sell_signals,
          (reasons ++ [[Lit "High volatility ("; Num ".1f" volatility; Lit "%)"]])%list)
    else (sell_signals, reasons) in
  (* strong HOLD/BUY signals *)
  let hold_signals := 0%nat in
  let '(hold_signals, reasons) :=
    if (gain_loss_percent >? Fin 20)%float
    then (S hold_signals,
          (reasons ++ [[Lit "Strong gains ("; Num ".1f" gain_loss_percent; Lit "%)"]])%list)
    else (hold_signals, reasons) in
  let '(hold_signals, reasons) :=
    if (risk_score <=? Fin 3)%float
    then (S hold_signals, (reasons ++ [[Lit "Low risk profile"]])%list)
    else (hold_signals, reasons) in
  let '(hold_signals, reasons) :=
    if (volatility <? Fin 20)%float && (portfolio_weight <? Fin 25)%float
    then (S hold_signals, (reasons ++ [[Lit "Well-balanced stable position"]])%list)
    else (hold_signals, reasons) in
  let '(recommendation, confidence) :=
    if (2 <=? sell_signals)%nat then
      ("SELL", if (3 <=? sell_signals)%nat then "HIGH" else "MEDIUM")
    else if (sell_signals =? 1)%nat && (hold_signals =? 0)%nat then ("REDUCE", "MEDIUM")
    else if (2 <=? hold_signals)%nat then ("HOLD", "HIGH")
    else ("HOLD", "LOW") in
  let action :=
    if recommendation =? "SELL" then
      [Lit "Consider selling "; Str symbol; Lit " to reduce portfolio risk"]
    else if recommendation =? "REDUCE" then
      [Lit "Consider reducing your "; Str symbol; Lit " position by 25-50%"]
    else [Lit "Keep holding "; Str symbol; Lit " - no immediate action needed"] in
  {| symbol := symbol;
     recommendation := recommendation;
     confidence := confidence;
     action := action;
     reasons := if Calculations.nonempty reasons then reasons
                else [[Lit "Position is balanced and within normal parameters"]] |}.

End StockAnalyzerAgent.

(** ** More Python built-ins *)

Module PyStr.

(** [str.lower()] on ASCII text. *)
Definition lower_ascii (c : ascii) : ascii :=
  let n := nat_of_ascii c in
  if ((65 <=? n) && (n <=? 90))%nat then ascii_of_nat (n + 32) else c.

Fixpoint lower (s : string) : string :=
  match s with
  | EmptyString => EmptyString
  | String c s' => String (lower_ascii c) (lower s')
  end.

(** The ASCII characters [str.isspace()] accepts. *)
Definition is_space (c : ascii) : bool :=
  let n := nat_of_ascii c in
  (((9 <=? n) && (n <=? 13)) || ((28 <=? n) && (n <=? 32)))%nat.

Fixpoint lstrip (s : string) : string :=
  match s with
  | EmptyString => EmptyString
  | String c s' => if is_space c then lstrip s' else s
  end.

Fixpoint rev (s : string) : string :=
  match s with
  | EmptyString => EmptyString
  | String c s' => (rev s' ++ String c EmptyString)%string
  end.

Definition rstrip (s : string) : string := rev (lstrip (rev s)).

(** [str.strip()]. *)
Definition strip (s : string) : string := rstrip (lstrip s).

(** [sub in s] on strings: [sub] occurs in [s]. *)
Fixpoint contains (sub s : string) : bool :=
  String.prefix sub s ||
  match s with
  | EmptyString => false
  | String _ s' => contains sub s'
  end.

(** [d.get(key, default)] on a dict with string keys, kept as the list of
    its items. *)
Fixpoint dict_get {V : Type} (d : list (string * V)) (key : string) (default : V) : V :=
  match d with
  | [] => default
  | (k, v) :: d' => if (k =? key)%string then v else dict_get d' key default
  end.

(** [l.sort(key=..., reverse=True)]: descending by key and stable, items
    with equal keys keep their order. *)
Fixpoint insert_desc {A : Type} (key : A -> float) (x : A) (l : list A) : list A :=
  match l with
  | [] => [x]
  | y :: l' => if (key x <? key y)%float then y :: insert_desc key x l' else x :: l
  end.

Definition sort_reverse {A : Type} (key : A -> float) (l : list A) : list A :=
  fold_right (insert_desc key) [] l.

(** [sum(1 for x in l if p(x))]. *)
Definition count {A : Type} (p : A -> bool) (l : list A) : nat :=
  List.length (filter p l).

End PyStr.

(** ** app/agents/stock_analyzer_agent.py, the risk analysis *)

Module StockRisk.

Import StockAnalyzerAgent.

Definition MOCK_VOLATILITY : list (string * float) :=
  [("AAPL", Fin (28 # 100)); ("GOOGL", Fin (32 # 100)); ("MSFT", Fin (25 # 100));
   ("AMZN", Fin (35 # 100)); ("TSLA", Fin (55 # 100)); ("NVDA", Fin (52 # 100));
   ("META", Fin (40 # 100)); ("SPY", Fin (15 # 100)); ("QQQ", Fin (22 # 100));
   ("VTI", Fin (14 # 100)); ("INFY", Fin (30 # 100)); ("TCS", Fin (28 # 100))].

(** The score of a stock from its three components, and its level; both
    [analyze_stock_risk] and [analyze_all_stocks] spell these lines out. *)
Definition stock_risk_score (volatility weight gain_loss_percent : float) : float :=
  let volatility_risk := Py.min2 (volatility * Fin 10)%float (Fin 5) in
  let concentration_risk := Py.min2 (weight / Fin 10)%float (Fin 3) in
  let loss_risk :=
    if (gain_loss_percent <? Fin (-10))%float then Fin 2
    else if (gain_loss_percent <? Fin 0)%float then Fin 1 else Fin 0 in
  let stock_risk_score :=
    Py.round (volatility_risk + concentration_risk + loss_risk)%float 1 in
  Py.min2 (Fin 10) (Py.max2 (Fin 1) stock_risk_score).

Definition risk_level_of (stock_risk_score : float) : string :=
  if (stock_risk_score <=? Fin 3)%float then "LOW"
  else if (stock_risk_score <=? Fin 5)%float then "MODERATE"
  else if (stock_risk_score <=? Fin 7)%float then "ELEVATED"
  else "HIGH".

Record stock_risk : Type := {
  sr_symbol : string;
  sr_current_price : float;
  sr_purchase_price : float;
  sr_quantity : float;
  sr_current_value : float;
  sr_gain_loss : float;
  sr_gain_loss_percent : float;
  sr_volatility : float;
  sr_portfolio_weight : float;
  sr_risk_score : float;
  sr_risk_level : string
}.

Definition analyze_stock_risk (symbol : string)
    (quantity purchase_price current_price portfolio_weight : float)
    : result stock_risk :=
  let symbol := Py.upper symbol in
  let gain_loss := ((current_price - purchase_price) * quantity)%float in
  gain_loss_percent <-
    (if (purchase_price >? Fin 0)%float then
       q <- Py.truediv (current_price - purchase_price)%float purchase_price ;;
       Ok (q * Fin 100)%float
     else Ok (Fin 0)) ;;
  let volatility := PyStr.dict_get MOCK_VOLATILITY symbol (Fin (35 # 100)) in
  let stock_risk_score := stock_risk_score volatility portfolio_weight gain_loss_percent in
  let risk_level := risk_level_of stock_risk_score in
  Ok {| sr_symbol := symbol;
        sr_current_price := current_price;
        sr_purchase_price := purchase_price;
        sr_quantity := quantity;
        sr_current_value := Py.round (current_price * quantity)%float 2;
        sr_gain_loss := Py.round gain_loss 2;
        sr_gain_loss_percent := Py.round gain_loss_percent 2;
        sr_volatility := Py.round (volatility * Fin 100)%float 1;
        sr_portfolio_weight := Py.round portfolio_weight 1;
        sr_risk_score := stock_risk_score;
        sr_risk_level := risk_level |}.

(** An item of the list [analyze_all_stocks] receives: a dict read with
    [.get(key, default)]. *)
Record stock_holding : Type := {
  sh_symbol : option string;
  sh_value : option float;
  sh_weight : option float;
  sh_individual_volatility : option float;
  sh_purchase_price : option float;
  sh_current_price : option float;
  sh_quantity : option float
}.

(** An item of ["stock_analyses"]: the keys of the analysis and, spread over
    them, those of the recommendation, whose ["symbol"] replaces the one set
    first. *)
Record stock_analysis : Type := {
  sa_current_value : float;
  sa_portfolio_weight : float;
  sa_volatility : float;
  sa_gain_loss_percent : float;
  sa_risk_score : float;
  sa_risk_level : string;
  sa_recommendation : stock_recommendation
}.

Record stock_report : Type := {
  stock_count : nat;
  high_risk_count : nat;
  sell_recommendations : nat;
  stock_analyses : list stock_analysis
}.

Definition analyze_holding (total_value : float) (holding : stock_holding)
    : result stock_analysis :=
  let symbol := Calculations.get (sh_symbol holding) "UNKNOWN" in
  let value := Calculations.get (sh_value holding) (Fin 0) in
  default_weight <-
    (if (total_value >? Fin 0)%float then
       q <- Py.truediv value total_value ;; Ok (q * Fin 100)%float
     else Ok (Fin 0)) ;;
  let weight := Calculations.get (sh_weight holding) default_weight in
  let volatility :=
    Calculations.get (sh_individual_volatility holding)
      (PyStr.dict_get MOCK_VOLATILITY (Py.upper symbol) (Fin (35 # 100))) in
  let purchase_price := Calculations.get (sh_purchase_price holding) (Fin 0) in
  let current_price := Calculations.get (sh_current_price holding) (Fin 0) in
  gain_loss_percent <-
    (if (purchase_price >? Fin 0)%float && (current_price >? Fin 0)%float then
       q <- Py.truediv (current_price - purchase_price)%float purchase_price ;;
       Ok (q * Fin 100)%float
     else Ok (Fin 0)) ;;
  let stock_risk_score := stock_risk_score volatility weight gain_loss_percent in
  let risk_level := risk_level_of stock_risk_score in
  let recommendation :=
    generate_stock_recommendation symbol stock_risk_score gain_loss_percent weight
      (volatility * Fin 100)%float in
  Ok {| sa_current_value := Py.round value 2;
        sa_portfolio_weight := Py.round weight 1;
        sa_volatility := Py.round (volatility * Fin 100)%float 1;
        sa_gain_loss_percent := Py.round gain_loss_percent 1;
        sa_risk_score := stock_risk_score;
        sa_risk_level := risk_level;
        sa_recommendation := recommendation |}.

(** [analyze_all_stocks] on holdings that are already a list (the
    [isinstance] test fails and no JSON is parsed), as [main.py] calls it. *)
Definition analyze_all_stocks (holdings : list stock_holding) : result stock_report :=
  if negb (Calculations.nonempty holdings) then
    Ok {| stock_count := 0; high_risk_count := 0; sell_recommendations := 0;
          stock_analyses := [] |}
  else
    let total_value :=
      Py.sum (map (fun h => Calculations.get (sh_value h) (Fin 0)) holdings) in
    stock_analyses <- Calculations.mapM (analyze_holding total_value) holdings ;;
    let stock_analyses := PyStr.sort_reverse sa_risk_score stock_analyses in
    Ok {| stock_count := List.length stock_analyses;
          high_risk_count :=
            PyStr.count (fun s => Py.str_in (sa_risk_level s) ["HIGH"; "ELEVATED"])
              stock_analyses;
          sell_recommendations :=
            PyStr.count
              (fun s => Py.str_in (recommendation (sa_recommendation s)) ["SELL"; "REDUCE"])
              stock_analyses;
          stock_analyses := stock_analyses |}.

End StockRisk.

(** ** app/agents/risk_analyzer_agent.py *)

Module RiskAnalyzerAgent.

Record factor : Type := {
  f_value : float;
  f_assessment : string;
  f_description : fstring
}.

Record risk_report : Type := {
  risk_score : float;
  risk_level : string;
  interpretation : string;
  volatility : factor;
  concentration : factor;
  correlation : factor
}.

Definition analyze_risk (portfolio_data : string)
    (volatility concentration correlation risk_score : float) : risk_report :=
  let '(risk_level, interpretation) :=
    if (risk_score <=? Fin 3)%float then
      ("LOW",
       "Your portfolio has low risk. It is well-diversified with stable assets.")
    else if (risk_score <=? Fin 5)%float then
      ("MODERATE",
       "Your portfolio has moderate risk. Consider monitoring for concentration issues.")
    else if (risk_score <=? Fin 7)%float then
      ("ELEVATED",
       "Your portfolio has elevated risk. You may want to consider rebalancing.")
    else
      ("HIGH",
       "Your portfolio has high risk. Immediate attention may be needed.") in
  let volatility_assessment :=
    if (volatility >? Fin (3 # 10))%float then "high"
    else if (volatility >? Fin (15 # 100))%float then "moderate" else "low" in
  let concentration_assessment :=
    if (concentration >? Fin (4 # 10))%float then "high"
    else if (concentration >? Fin (2 # 10))%float then "moderate" else "low" in
  let correlation_assessment :=
    if (correlation >? Fin (7 # 10))%float then "high"
    else if (correlation >? Fin (4 # 10))%float then "moderate" else "low" in
  {| risk_score := risk_score;
     risk_level := risk_level;
     interpretation := interpretation;
     volatility :=
       {| f_value := Py.round volatility 4;
          f_assessment := volatility_assessment;
          f_description :=
            [Lit "Portfolio volatility is "; Str volatility_assessment; Lit " at ";
             Num ".1f" (volatility * Fin 100)%float; Lit "% annualized"] |};
     concentration :=
       {| f_value := Py.round concentration 4;
          f_assessment := concentration_assessment;
          f_description :=
            [Lit "Portfolio concentration is "; Str concentration_assessment;
             Lit " (HHI: "; Num ".3f" concentration; Lit ")"] |};
     correlation :=
       {| f_value := Py.round correlation 4;
          f_assessment := correlation_assessment;
          f_description :=
            [Lit "Asset correlation is "; Str correlation_assessment; Lit " at ";
             Num ".2f" correlation] |} |}.

End RiskAnalyzerAgent.

(** ** app/agents/recommendation_agent.py *)

Module RecommendationAgent.

Record recommendation : Type := {
  action : string;
  stock : string;
  reason : string;
  confidence : float;
  priority : string
}.

Definition get_advice_for_profile (profile : string) (risk_score : float) : string :=
  if (PyStr.lower profile =? "beginner")%string then
    if (risk_score >? Fin 6)%float then
      "As a beginner, your current portfolio may be too risky. Consider shifting 20-30% to index funds."
    else
      "Great job maintaining a balanced portfolio! Keep learning about different asset classes."
  else if (PyStr.lower profile =? "senior")%string then
    if (risk_score >? Fin 7)%float then
      "While you may have appetite for risk, ensure you have adequate stop-losses in place."
    else
      "Your portfolio management is solid. Consider tax-loss harvesting opportunities."
  else
    "Review your portfolio quarterly and consider your long-term financial goals.".

Record advice : Type := {
  user_profile : string;
  profile_description : string;
  recommendations : list recommendation;
  general_advice : string
}.

Definition generate_recommendations (portfolio_data user_profile : string)
    (risk_score : float) (concentration_data : string) : advice :=
  let is_high_risk := (risk_score >? Fin 6)%float in
  let is_beginner := (PyStr.lower user_profile =? "beginner")%string in
  let recommendations :=
    if is_beginner then
      if is_high_risk then
        [ {| action := "BUY"; stock := "SPY";
             reason := "Add index fund exposure to reduce overall portfolio risk through diversification";
             confidence := Fin (92 # 100); priority := "HIGH" |};
          {| action := "HOLD"; stock := "Current Holdings";
             reason := "Avoid panic selling; focus on gradual rebalancing instead";
             confidence := Fin (85 # 100); priority := "MEDIUM" |} ]
      else
        [ {| action := "HOLD"; stock := "Current Holdings";
             reason := "Your portfolio is well-balanced. Continue your current investment strategy.";
             confidence := Fin (90 # 100); priority := "MEDIUM" |};
          {| action := "BUY"; stock := "VTI";
             reason := "Consider adding total market ETF for long-term growth";
             confidence := Fin (78 # 100); priority := "LOW" |} ]
    else
      if is_high_risk then
        [ {| action := "SELL"; stock := "Largest Holding";
             reason := "Consider reducing position size to decrease concentration risk";
             confidence := Fin (88 # 100); priority := "HIGH" |};
          {| action := "BUY"; stock := "Sector ETF";
             reason := "Replace individual stock exposure with sector ETF to maintain exposure while reducing single-stock risk";
             confidence := Fin (82 # 100); priority := "MEDIUM" |} ]
      else
        [ {| action := "HOLD"; stock := "Current Holdings";
             reason := "Portfolio risk is within acceptable bounds. Review quarterly.";
             confidence := Fin (88 # 100); priority := "MEDIUM" |} ] in
  let recommendations :=
    (recommendations ++
     [ {| action := "REVIEW"; stock := "Portfolio";
          reason := "Schedule quarterly portfolio review to assess performance and rebalance if needed";
          confidence := Fin (95 # 100); priority := "MEDIUM" |} ])%list in
  {| user_profile := user_profile;
     profile_description :=
       if is_beginner then "Beginner investor - focus on safety and education"
       else "Experienced investor - can tolerate higher risk";
     recommendations := firstn 5 recommendations;
     general_advice := get_advice_for_profile user_profile risk_score |}.

End RecommendationAgent.

(** ** app/agents/chat_agent.py *)

Module ChatAgent.

Record add_result : Type := {
  a_scenario : fstring;
  a_stock_symbol : string;
  a_stock_type : string;
  a_amount_invested : float;
  a_current_portfolio_value : float;
  a_new_portfolio_value : float;
  a_new_position_weight : float;
  a_current_risk_score : float;
  a_new_risk_score : float;
  a_risk_change : float;
  a_impact : string;
  a_analysis : fstring
}.

Definition simulate_add_stock (stock_symbol : string)
    (amount current_portfolio_value current_risk_score : float) : result add_result :=
  let new_value := (current_portfolio_value + amount)%float in
  let symbol_upper := Py.upper stock_symbol in
  let '(risk_change, stock_type, impact) :=
    if Py.str_in symbol_upper ["SPY"; "VTI"; "QQQ"; "VOO"; "IVV"; "VT"; "VEA"; "BND"; "AGG"]
    then (Fin (- (5 # 10)), "Index Fund/ETF", "POSITIVE")
    else if Py.str_in symbol_upper
              ["TSLA"; "NVDA"; "AMD"; "COIN"; "GME"; "AMC"; "MARA"; "RIOT"]
    then (Fin (6 # 10), "High-Volatility Stock", "CAUTIONARY")
    else if Py.str_in symbol_upper
              ["AAPL"; "MSFT"; "GOOGL"; "GOOG"; "META"; "AMZN"; "JNJ"; "PG"; "KO"; "WMT"]
    then (Fin (2 # 10), "Large-Cap Stock", "NEUTRAL")
    else (Fin (3 # 10), "Stock", "NEUTRAL") in
  let new_risk_score :=
    Py.round (Py.min2 (Fin 10) (Py.max2 (Fin 1) (current_risk_score + risk_change)%float)) 2 in
  q <- Py.truediv amount new_value ;;
  let weight_in_new_portfolio := (q * Fin 100)%float in
  Ok {| a_scenario := [Lit "Add $"; Num ",.0f" amount; Lit " of "; Str symbol_upper];
        a_stock_symbol := symbol_upper;
        a_stock_type := stock_type;
        a_amount_invested := amount;
        a_current_portfolio_value := current_portfolio_value;
        a_new_portfolio_value := new_value;
        a_new_position_weight := Py.round weight_in_new_portfolio 2;
        a_current_risk_score := current_risk_score;
        a_new_risk_score := new_risk_score;
        a_risk_change := risk_change;
        a_impact := impact;
        a_analysis :=
          [Lit "Adding $"; Num ",.0f" amount; Lit " of "; Str symbol_upper; Lit " (";
           Str stock_type; Lit ") would increase your portfolio to $";
           Num ",.2f" new_value; Lit ". ";
           Lit "This would make "; Str symbol_upper; Lit " ";
           Num ".1f" weight_in_new_portfolio; Lit "% of your portfolio. ";
           Lit "Risk score would change from "; Num "" current_risk_score; Lit " to ";
           Num "" new_risk_score; Lit " (";
           Str (if (risk_change >? Fin 0)%float then "+" else "");
           Num ".1f" risk_change; Lit " points)."] |}.

Record sell_result : Type := {
  s_scenario : fstring;
  s_stock_symbol : string;
  s_amount_sold : float;
  s_current_portfolio_value : float;
  s_new_portfolio_value : float;
  s_current_risk_score : float;
  s_new_risk_score : float;
  s_risk_change : float;
  s_impact : string;
  s_analysis : fstring
}.

Definition simulate_sell_stock (stock_symbol : string)
    (amount current_portfolio_value current_risk_score : float) : sell_result :=
  let new_value := Py.max2 (Fin 0) (current_portfolio_value - amount)%float in
  let risk_change :=
    if (current_portfolio_value >? Fin 0)%float then Fin (3 # 10) else Fin 0 in
  let new_risk_score :=
    Py.round (Py.min2 (Fin 10) (Py.max2 (Fin 1) (current_risk_score + risk_change)%float)) 2 in
  {| s_scenario := [Lit "Sell $"; Num ",.0f" amount; Lit " of "; Str (Py.upper stock_symbol)];
     s_stock_symbol := Py.upper stock_symbol;
     s_amount_sold := amount;
     s_current_portfolio_value := current_portfolio_value;
     s_new_portfolio_value := new_value;
     s_current_risk_score := current_risk_score;
     s_new_risk_score := new_risk_score;
     s_risk_change := risk_change;
     s_impact := "CAUTIONARY";
     s_analysis :=
       [Lit "Selling $"; Num ",.0f" amount; Lit " of "; Str (Py.upper stock_symbol);
        Lit " would reduce your portfolio to $"; Num ",.2f" new_value; Lit ". ";
        Lit "Consider the impact on diversification. Risk score would change to ";
        Num "" new_risk_score; Lit "."] |}.

Record comparison : Type := {
  c_comparison : fstring;
  c_option1 : add_result;
  c_option2 : add_result;
  c_recommendation : fstring;
  c_risk_difference : float
}.

Definition compare_investment_options (option1_symbol option2_symbol : string)
    (amount current_portfolio_value current_risk_score : float) : result comparison :=
  result1 <- simulate_add_stock option1_symbol amount current_portfolio_value
               current_risk_score ;;
  result2 <- simulate_add_stock option2_symbol amount current_portfolio_value
               current_risk_score ;;
  let better_for_risk :=
    if (a_new_risk_score result1 <? a_new_risk_score result2)%float
    then option1_symbol else option2_symbol in
  Ok {| c_comparison :=
          [Str (Py.upper option1_symbol); Lit " vs "; Str (Py.upper option2_symbol);
           Lit " - $"; Num ",.0f" amount; Lit " investment"];
        c_option1 := result1;
        c_option2 := result2;
        c_recommendation :=
          [Str (Py.upper better_for_risk); Lit " would result in a lower risk score (";
           Num "" (Py.min2 (a_new_risk_score result1) (a_new_risk_score result2));
           Lit ")"];
        c_risk_difference :=
          fabs (a_new_risk_score result1 - a_new_risk_score result2)%float |}.

End ChatAgent.

(** ** app/agents/alert_agent.py

    Each [datetime.now()] the code performs is an argument of the function
    that performs it. *)

Module AlertAgent.

Record datetime : Type := {
  year : Z;
  month : nat;
  isoformat : string
}.

Record alert : Type := {
  type : string;
  severity : string;
  message : string;
  action : string
}.

Record rebalancing : Type := {
  needs_rebalancing : bool;
  drift_threshold : float;
  r_alerts : list alert;
  r_recommendation : string;
  last_checked : string
}.

Definition check_rebalancing_need (now : datetime) (holdings_weights : string)
    (target_allocation : option string) (drift_threshold : float) : rebalancing :=
  let '(needs_rebalancing, alerts) :=
    if PyStr.contains "NVDA" (Py.upper holdings_weights)
       || PyStr.contains "TSLA" (Py.upper holdings_weights)
    then (true,
          [ {| type := "POSITION_DRIFT"; severity := "HIGH";
               message := "Technology sector overweight detected. Consider rebalancing.";
               action := "Review tech holdings and consider taking profits" |} ])
    else (false, []) in
  {| needs_rebalancing := needs_rebalancing;
     drift_threshold := drift_threshold;
     r_alerts := alerts;
     r_recommendation :=
       if needs_rebalancing then "Rebalance quarterly to maintain target allocation"
       else "Portfolio within acceptable drift range";
     last_checked := isoformat now |}.

Record opportunity : Type := {
  o_type : string;
  o_stock : string;
  estimated_loss : float;
  potential_tax_savings : float;
  o_action : string;
  wash_sale_warning : string
}.

Record tax_report : Type := {
  tax_year : Z;
  opportunities : list opportunity;
  total_potential_savings : float;
  note : string
}.

(** [now] is read only when [tax_year] is [None]. *)
Definition detect_tax_loss_harvesting (now : datetime) (holdings_with_gains : string)
    (tax_year : option Z) : tax_report :=
  let tax_year := match tax_year with None => year now | Some y => y end in
  let opportunities :=
    if PyStr.contains "loss" (PyStr.lower holdings_with_gains)
       || PyStr.contains "negative" (PyStr.lower holdings_with_gains)
    then [ {| o_type := "TAX_LOSS_HARVEST"; o_stock := "Example Stock";
              estimated_loss := Fin (-2500); potential_tax_savings := Fin 625;
              o_action := "Consider selling to realize loss and offset gains";
              wash_sale_warning :=
                "Wait 31 days before repurchasing to avoid wash sale rules" |} ]
    else [] in
  {| tax_year := tax_year;
     opportunities := opportunities;
     total_potential_savings := Py.sum (map potential_tax_savings opportunities);
     note := "Consult with a tax professional before making decisions" |}.

Record market_report : Type := {
  market_conditions : string;
  timestamp : string;
  m_alerts : list alert;
  priority_alerts : list alert
}.

Definition generate_market_alerts (now_month now_stamp : datetime)
    (portfolio_sectors market_conditions : string) : market_report :=
  let current_month := month now_month in
  let alerts :=
    ((if (10 <=? current_month)%nat then
        [ {| type := "TAX_PLANNING"; severity := "MEDIUM";
             message := "Q4 Tax Planning: Review portfolio for year-end tax optimization";
             action := "Consider tax-loss harvesting before Dec 31" |} ]
      else []) ++
     (if (current_month =? 12)%nat then
        [ {| type := "REBALANCE_REMINDER"; severity := "LOW";
             message := "Year-end portfolio review recommended";
             action := "Schedule annual portfolio rebalancing" |} ]
      else []) ++
     (if PyStr.contains "tech" (PyStr.lower portfolio_sectors) then
        [ {| type := "SECTOR_WATCH"; severity := "INFO";
             message := "Technology sector exposure detected";
             action :=
               "Monitor Fed interest rate decisions that may impact tech valuations" |} ]
      else []) ++
     [ {| type := "MARKET_UPDATE"; severity := "INFO";
          message := "Regular portfolio monitoring recommended";
          action := "Review portfolio performance monthly" |} ])%list in
  {| market_conditions := market_conditions;
     timestamp := isoformat now_stamp;
     m_alerts := alerts;
     priority_alerts :=
       filter (fun a => Py.str_in (severity a) ["HIGH"; "MEDIUM"]) alerts |}.

Record alert_report : Type := {
  total_alerts : nat;
  high_priority : list alert;
  medium_priority : list alert;
  low_priority : list alert;
  alerts : list alert;
  generated_at : string
}.

(** The five clock readings are, in order, those of [check_rebalancing_need],
    of [detect_tax_loss_harvesting], the two of [generate_market_alerts] and
    the one of the report itself. *)
Definition compile_all_alerts (now1 now2 now3 now4 now5 : datetime)
    (portfolio_data user_profile : string) : alert_report :=
  let rebalance := check_rebalancing_need now1 portfolio_data None (Fin (5 # 100)) in
  let all_alerts :=
    if needs_rebalancing rebalance then r_alerts rebalance else [] in
  let tax := detect_tax_loss_harvesting now2 portfolio_data None in
  let all_alerts :=
    (all_alerts ++
     map (fun opp =>
            {| type := o_type opp; severity := "MEDIUM"; message := o_action opp;
               action := wash_sale_warning opp |})
         (opportunities tax))%list in
  let market := generate_market_alerts now3 now4 portfolio_data "normal" in
  let all_alerts := (all_alerts ++ m_alerts market)%list in
  let all_alerts :=
    if (PyStr.lower user_profile =? "beginner")%string then
      filter (fun a => negb (severity a =? "INFO")%string
                       || PyStr.contains "recommend" (PyStr.lower (message a)))
             all_alerts
    else all_alerts in
  {| total_alerts := List.length all_alerts;
     high_priority := filter (fun a => (severity a =? "HIGH")%string) all_alerts;
     medium_priority := filter (fun a => (severity a =? "MEDIUM")%string) all_alerts;
     low_priority := filter (fun a => Py.str_in (severity a) ["LOW"; "INFO"]) all_alerts;
     alerts := firstn 10 all_alerts;
     generated_at := isoformat now5 |}.

End AlertAgent.

(** ** Words of the specification *)

Module Spec.

(** [clamp(x, lo, hi)], which the specification spells [min(hi, max(lo, x))]. *)
Definition clamp (x lo hi : float) : float := Py.min2 hi (Py.max2 lo x).


(** Population standard deviation: the square root of the sum of squared
    deviations from the mean over the number [n] of samples. *)
Definition population_stddev (sqrt : float -> float) (xs : list float) : float :=
  let n := Fin (inject_Z (Z.of_nat (List.length xs))) in
  let mu := (fold_left fadd xs (Fin 0) / n)%float in
  sqrt (fold_left fadd (map (fun x => (x - mu) * (x - mu))%float xs) (Fin 0) / n)%float.

(** The number of conditions that hold. *)
Definition count_true (conds : list bool) : nat := List.length (filter (fun b => b) conds).

(** The four sell signals and the three hold signals of the classifier. *)
Definition sell_signals (risk_score gain_loss_percent portfolio_weight volatility : float)
    : nat :=
  count_true [(risk_score >=? Fin 7)%float; (gain_loss_percent <? Fin (-15))%float;
              (portfolio_weight >? Fin 35)%float; (volatility >? Fin 45)%float].

Definition hold_signals (risk_score gain_loss_percent portfolio_weight volatility : float)
    : nat :=
  count_true [(gain_loss_percent >? Fin 20)%float; (risk_score <=? Fin 3)%float;
              (volatility <? Fin 20)%float && (portfolio_weight <? Fin 25)%float].

(** The index-fund and high-volatility symbol classes of the simulator, and
    the risk delta of each class. *)
Definition is_index_fund (sym : string) : bool :=
  Py.str_in (Py.upper sym) ["SPY"; "VTI"; "QQQ"].

Definition is_high_volatility (sym : string) : bool :=
  Py.str_in (Py.upper sym) ["TSLA"; "NVDA"; "COIN"].

Definition add_stock_delta (sym : string) : float :=
  if is_index_fund sym then Fin (- (8 # 10))
  else if is_high_volatility sym then Fin (6 # 10)
  else Fin (2 # 10).

(** [x] is the first item of [l] with the lowest key: no item has a smaller
    key, and every earlier item has a strictly larger one. *)
Definition first_lowest {A : Type} (key : A -> float) (l : list A) (x : A) : Prop :=
  exists pre post,
    l = (pre ++ x :: post)%list /\
    (forall y, In y pre -> (key x <? key y)%float = true) /\
    (forall y, In y post -> (key x <=? key y)%float = true).

End Spec.

(** ** Notions used in the statements and proofs *)

Import Calculations ScenarioAgent StockAnalyzerAgent.

Local Open Scope Q_scope.

(** The sum of a list of rationals, left to right. *)
Definition Qsum (ws : list Q) : Q := fold_left Qplus ws 0.

(** The index on finite weights, computed on rationals. *)
Definition hhi_Q (ws : list Q) : Q :=
  let total := Qsum ws in
  if Qlt_bool 0 total then Qsum (map (fun w => (w / total) * (w / total)) ws) else 0.

(** The order in which NaN ranks as high as +inf. *)
Definition up (x : float) : float :=
  match x with NaN => PInf | _ => x end.

Definition rle (a b : float) : Prop := (up a <=? up b)%float = true.

(** A finite number of the unit interval. *)
Definition unit01 (x : float) : Prop := exists q, x = Fin q /\ 0 <= q /\ q <= 1.

(** A square matrix of side [n]: [n] rows of [n] entries. *)
Definition square (n : nat) (M : list (list float)) : Prop :=
  List.length M = n /\ Forall (fun row => List.length row = n) M.

(** Every branch computes the new risk score the same way. *)
Definition new_risk (current_risk_score delta : float) : float :=
  Py.round (Spec.clamp (current_risk_score + delta)%float (Fin 1) (Fin 10)) 2.

(** The text of the recommendation that names scenario [best]. *)
Definition recommendation_naming (best : scenario_result) : fstring :=
  ([Lit "Based on analysis, '"] ++ scenario best ++
   [Lit "' would result in the most favorable risk profile (Risk Score: ";
    Num "" (new_risk_score best); Lit ")."])%list.

(** A holding whose price feed gave 0: ten shares worth nothing. *)
Definition worthless_holding : holding :=
  {| Calculations.symbol := Some "AAPL"%string;
     quantity := Some (Fin 10);
     current_price := Some (Fin 0);
     historical_prices := Some [Fin 100; Fin 110; Fin 99; Fin 105] |}.

(** The square of a weight. *)
Definition Qsq (x : Q) : Q := x * x.

(** A holding with its value and weight, as the first two loops leave it. *)
Definition weighted (total_value : float) (h : holding) : holding_with_value :=
  {| base := h;
     value := holding_value h;
     weight := if (total_value >? Fin 0)%float then (holding_value h / total_value)%float
               else Fin 0 |}.

(** [a] may stand before [b] in a list sorted from the highest key down. *)
Definition desc {A : Type} (key : A -> float) (a b : A) : Prop :=
  (key b <=? key a)%float = true.

(** The four levels in increasing order. *)
Definition level_rank (level : string) : nat :=
  if (level =? "LOW")%string then 0
  else if (level =? "MODERATE")%string then 1
  else if (level =? "ELEVATED")%string then 2
  else 3.

(** * Properties *)

(** ** Comparisons and arithmetic on floats *)

Lemma Qlt_bool_iff (a b : Q) : Qlt_bool a b = true <-> a < b.
Proof.
  unfold Qlt_bool. rewrite negb_true_iff.
  destruct (Qle_bool b a) eqn:E.
  - apply Qle_bool_iff in E. split; [discriminate | intro; lra].
  - split; [intros _ | reflexivity].
    destruct (Qlt_le_dec a b) as [H | H]; [exact H |].
    apply Qle_bool_iff in H. congruence.
Qed.

Lemma Qlt_bool_false (a b : Q) : Qlt_bool a b = false <-> b <= a.
Proof.
  split; intro H.
  - destruct (Qlt_le_dec a b) as [L | L]; [| exact L].
    apply Qlt_bool_iff in L. congruence.
  - destruct (Qlt_bool a b) eqn:E; [| reflexivity].
    apply Qlt_bool_iff in E. lra.
Qed.

Lemma Qle_bool_false (a b : Q) : Qle_bool a b = false <-> b < a.
Proof.
  split; intro H.
  - destruct (Qlt_le_dec b a) as [L | L]; [exact L |].
    apply Qle_bool_iff in L. congruence.
  - destruct (Qle_bool a b) eqn:E; [| reflexivity].
    apply Qle_bool_iff in E. lra.
Qed.

Lemma Qeq_bool_false (a b : Q) : Qeq_bool a b = false <-> ~ a == b.
Proof.
  split; intro H.
  - intro E. apply Qeq_bool_iff in E. congruence.
  - destruct (Qeq_bool a b) eqn:E; [| reflexivity].
    apply Qeq_bool_iff in E. contradiction.
Qed.

(** Turns the boolean tests on rationals of the goal and context into
    propositions, case by case. *)
Ltac qprop :=
  repeat match goal with
  | H : Qlt_bool _ _ = true |- _ => apply Qlt_bool_iff in H
  | H : Qlt_bool _ _ = false |- _ => apply Qlt_bool_false in H
  | H : Qle_bool _ _ = true |- _ => apply Qle_bool_iff in H
  | H : Qle_bool _ _ = false |- _ => apply Qle_bool_false in H
  | H : Qeq_bool _ _ = true |- _ => apply Qeq_bool_iff in H
  | H : Qeq_bool _ _ = false |- _ => apply Qeq_bool_false in H
  | |- Qlt_bool _ _ = true => apply Qlt_bool_iff
  | |- Qlt_bool _ _ = false => apply Qlt_bool_false
  | |- Qle_bool _ _ = true => apply Qle_bool_iff
  | |- Qle_bool _ _ = false => apply Qle_bool_false
  | |- Qeq_bool _ _ = true => apply Qeq_bool_iff
  | |- Qeq_bool _ _ = false => apply Qeq_bool_false
  end.

Ltac fsimpl :=
  cbn [flt fle fgt fge feqb fadd fsub fneg fmul fdiv fabs is_nan is_finite
       Py.min2 Py.max2 Py.round] in *.

Ltac qcases :=
  repeat (fsimpl;
          match goal with
          | |- context [Qlt_bool ?a ?b] => destruct (Qlt_bool a b) eqn:?
          | |- context [Qle_bool ?a ?b] => destruct (Qle_bool a b) eqn:?
          | |- context [Qeq_bool ?a ?b] => destruct (Qeq_bool a b) eqn:?
          end);
  fsimpl.

#[global] Instance feq_Equivalence : Equivalence feq.
Proof.
  split.
  - intros [a | | |]; simpl; auto. reflexivity.
  - intros [a | | |] [b | | |]; simpl; auto. intro; symmetry; assumption.
  - intros [a | | |] [b | | |] [c | | |]; simpl; auto; try contradiction.
    intros; etransitivity; eassumption.
Qed.

Lemma fle_flt_false (x y : float) : (x <=? y)%float = true -> (y <? x)%float = false.
Proof.
  destruct x, y; simpl; try congruence. intro H. qprop. lra.
Qed.

(** On numbers other than NaN the order is total. *)
Lemma flt_false_fle (x y : float) :
  is_nan x = false -> is_nan y = false ->
  (y <? x)%float = false -> (x <=? y)%float = true.
Proof.
  destruct x, y; simpl; try congruence. intros _ _ H. qprop. lra.
Qed.

Lemma flt_fle_trans (x y z : float) :
  (x <? y)%float = true -> (y <=? z)%float = true -> (x <? z)%float = true.
Proof.
  destruct x, y, z; simpl; try congruence. intros. qprop. lra.
Qed.

(** ** Rounding *)

Lemma round_half_even_bounds (q : Q) :
  (Qfloor q <= Py.round_half_even q <= Qfloor q + 1)%Z.
Proof.
  unfold Py.round_half_even.
  destruct ((q - inject_Z (Qfloor q)) * 2 ?= 1); [destruct (Z.even (Qfloor q)) | |]; lia.
Qed.

(** Below the half the value rounds down, above it rounds up. *)
Lemma round_half_even_down (q : Q) :
  (q - inject_Z (Qfloor q)) * 2 < 1 -> Py.round_half_even q = Qfloor q.
Proof.
  intro H. unfold Py.round_half_even. rewrite Qlt_alt in H. now rewrite H.
Qed.

Lemma round_half_even_up (q : Q) :
  1 < (q - inject_Z (Qfloor q)) * 2 -> Py.round_half_even q = (Qfloor q + 1)%Z.
Proof.
  intro H. unfold Py.round_half_even. rewrite Qgt_alt in H. now rewrite H.
Qed.

Lemma round_half_even_comp (p q : Q) :
  p == q -> Py.round_half_even p = Py.round_half_even q.
Proof.
  intro E. unfold Py.round_half_even.
  rewrite (Qfloor_comp _ _ E).
  assert (C : ((p - inject_Z (Qfloor q)) * 2 ?= 1) = ((q - inject_Z (Qfloor q)) * 2 ?= 1)).
  { apply Qcompare_comp; [rewrite E |]; reflexivity. }
  now rewrite C.
Qed.

Lemma round_half_even_mono (p q : Q) :
  p <= q -> (Py.round_half_even p <= Py.round_half_even q)%Z.
Proof.
  intro L.
  pose proof (Qfloor_resp_le _ _ L) as F.
  destruct (Z.eq_dec (Qfloor p) (Qfloor q)) as [E | NE].
  - pose proof (round_half_even_bounds p) as Bp.
    pose proof (round_half_even_bounds q) as Bq.
    destruct (Qcompare_spec ((q - inject_Z (Qfloor q)) * 2) 1) as [C | C | C].
    + destruct (Qcompare_spec ((p - inject_Z (Qfloor p)) * 2) 1) as [D | D | D].
      * rewrite (round_half_even_comp p q); [lia |].
        rewrite E in D. lra.
      * rewrite (round_half_even_down p D). lia.
      * rewrite E in D. lra.
    + assert (D : (p - inject_Z (Qfloor p)) * 2 < 1) by (rewrite E; lra).
      rewrite (round_half_even_down p D). lia.
    + rewrite (round_half_even_up q C). lia.
  - pose proof (round_half_even_bounds p). pose proof (round_half_even_bounds q). lia.
Qed.

Lemma round_half_even_Z (z : Z) : Py.round_half_even (inject_Z z) = z.
Proof.
  rewrite round_half_even_down; [apply Qfloor_Z |].
  rewrite Qfloor_Z. lra.
Qed.

Lemma pow10_pos (n : nat) : 0 < Py.pow10 n.
Proof.
  unfold Py.pow10. change 0 with (inject_Z 0). rewrite <- Zlt_Qlt.
  apply Z.pow_pos_nonneg; lia.
Qed.

(** [round] is monotone on finite values. *)
Lemma round_mono (a b : Q) (n : nat) :
  a <= b -> (Py.round (Fin a) n <=? Py.round (Fin b) n)%float = true.
Proof.
  intro L. simpl. qprop.
  pose proof (pow10_pos n) as P.
  assert (M : a * Py.pow10 n <= b * Py.pow10 n) by nra.
  apply round_half_even_mono in M. rewrite Zle_Qle in M.
  apply Qmult_le_r with (z := Py.pow10 n); [exact P |].
  field_simplify; [| lra | lra].
  lra.
Qed.

(** A value between two integers rounds, at two decimals, to a value
    between them. *)
Lemma round_range (a : Q) (lo hi : Z) (n : nat) :
  inject_Z lo <= a -> a <= inject_Z hi ->
  exists r, Py.round (Fin a) n = Fin r /\ inject_Z lo <= r /\ r <= inject_Z hi.
Proof.
  intros L H. eexists; split; [reflexivity |].
  pose proof (pow10_pos n) as P.
  assert (E : forall z : Z, inject_Z z * Py.pow10 n == inject_Z (z * 10 ^ Z.of_nat n)).
  { intro z. unfold Py.pow10. now rewrite inject_Z_mult. }
  assert (L' : inject_Z (lo * 10 ^ Z.of_nat n) <= a * Py.pow10 n) by (rewrite <- E; nra).
  assert (H' : a * Py.pow10 n <= inject_Z (hi * 10 ^ Z.of_nat n)) by (rewrite <- E; nra).
  apply round_half_even_mono in L', H'.
  rewrite round_half_even_Z in L', H'.
  rewrite Zle_Qle in L', H'. rewrite <- E in L', H'.
  split.
  - apply Qmult_le_r with (z := Py.pow10 n); [exact P |].
    field_simplify; [| lra]. lra.
  - apply Qmult_le_r with (z := Py.pow10 n); [exact P |].
    field_simplify; [| lra]. lra.
Qed.

(** ** Clamping *)

(** [min(hi, max(lo, x))] is a finite value of [[lo, hi]] whatever [x] is,
    NaN and the infinities included. *)
Lemma clamp_range (lo hi : Q) (x : float) :
  lo <= hi ->
  exists q, Spec.clamp x (Fin lo) (Fin hi) = Fin q /\ lo <= q /\ q <= hi.
Proof.
  intro L. unfold Spec.clamp, Py.min2, Py.max2, fgt.
  destruct x as [a | | |]; simpl; qcases; qprop;
    eexists; (split; [reflexivity |]); lra.
Qed.

(** The same for the order of the two calls in [calculate_risk_score]:
    [max(lo, min(hi, x))]. *)
Lemma max_min_range (lo hi : Q) (x : float) :
  lo <= hi ->
  exists q, Py.max2 (Fin lo) (Py.min2 (Fin hi) x) = Fin q /\ lo <= q /\ q <= hi.
Proof.
  intro L. unfold Py.min2, Py.max2, fgt.
  destruct x as [a | | |]; simpl; qcases; qprop;
    eexists; (split; [reflexivity |]); lra.
Qed.

(** ** An order that ranks NaN with +inf

    [max(1.0, min(10.0, x))] sends NaN and +inf both to 10, so the score is
    monotone for the order in which NaN is as high as +inf. *)

Lemma fle_rle (a b : float) : (a <=? b)%float = true -> rle a b.
Proof. destruct a, b; unfold rle; simpl; auto. Qed.

Lemma fadd_rle_l (a b c : float) : rle a b -> rle (a + c)%float (b + c)%float.
Proof.
  unfold rle. destruct a, b, c; simpl; try congruence; auto; intros; qprop; lra.
Qed.

Lemma fadd_rle_r (a b c : float) : rle a b -> rle (c + a)%float (c + b)%float.
Proof.
  unfold rle. destruct a, b, c; simpl; try congruence; auto; intros; qprop; lra.
Qed.

Lemma inf_of_sign_pos (w : Q) : 0 < w -> inf_of_sign w = PInf /\ inf_of_sign (- w) = NInf.
Proof.
  destruct w as [[| p | p] d]; unfold Qlt, inf_of_sign; simpl; intro H; try lia. auto.
Qed.

Lemma fmul_pos_rle_l (w : Q) (a b : float) :
  0 < w -> rle a b -> rle (Fin w * a)%float (Fin w * b)%float.
Proof.
  intros W. destruct (inf_of_sign_pos w W) as [P N].
  unfold rle. destruct a, b; simpl; rewrite ?P, ?N; simpl; try congruence; auto;
    intros; qprop; nra.
Qed.

Lemma fmul_pos_rle_r (w : Q) (a b : float) :
  0 < w -> rle a b -> rle (a * Fin w)%float (b * Fin w)%float.
Proof.
  intros W. destruct (inf_of_sign_pos w W) as [P N].
  unfold rle. destruct a, b; simpl; rewrite ?P, ?N; simpl; try congruence; auto;
    intros; qprop; nra.
Qed.

Lemma min2_fle_mono (a b c : float) :
  (a <=? b)%float = true -> (Py.min2 a c <=? Py.min2 b c)%float = true.
Proof.
  unfold Py.min2. destruct a, b, c; simpl; try congruence; auto;
    intros; qcases; simpl; qprop; lra.
Qed.

(** Clamping to [[1, 10]] and rounding to two decimals, as the last line of
    [calculate_risk_score] does, is monotone for [rle]. *)
Lemma round_max_min_rle (a b : float) :
  rle a b ->
  (Py.round (Py.max2 (Fin 1) (Py.min2 (Fin 10) a)) 2 <=?
   Py.round (Py.max2 (Fin 1) (Py.min2 (Fin 10) b)) 2)%float = true.
Proof.
  intro R.
  destruct (max_min_range 1 10 a) as (p & Ep & Pl & Ph); [lra |].
  destruct (max_min_range 1 10 b) as (q & Eq & Ql & Qh); [lra |].
  rewrite Ep, Eq. apply round_mono.
  revert Ep Eq R. unfold rle, Py.min2, Py.max2, fgt.
  destruct a, b; simpl; qcases; simpl; intros Ep Eq R;
    inversion Ep; inversion Eq; subst; try congruence; qprop; lra.
Qed.

(** ** RiskScorer *)

(** The score is always a finite number of [[1, 10]]. *)
Lemma calculate_risk_score_range (v c r : float) (w : float * float * float) :
  exists q, calculate_risk_score v c r w = Fin q /\ 1 <= q /\ q <= 10.
Proof.
  destruct w as [[w1 w2] w3]. unfold calculate_risk_score.
  match goal with |- context [Py.min2 (Fin 10) ?s] =>
    destruct (max_min_range 1 10 s) as (m & E & L & H); [lra |]; rewrite E end.
  apply (round_range m 1 10 2); assumption.
Qed.

(** C6: with the default weights (0.5, 0.3, 0.2) the risk score is
    monotonically non-decreasing in each of its three inputs, the other two
    held fixed: whenever [x <= x'] holds (Python's comparison, so neither is
    NaN), the score at [x] is at most the score at [x'], in the volatility,
    the concentration and the correlation position alike.  The fixed inputs
    [a] and [b] are any floats. *)
Theorem calculate_risk_score_monotone (x x' a b : float) :
  (x <=? x')%float = true ->
  (calculate_risk_score x a b default_weights <=?
   calculate_risk_score x' a b default_weights)%float = true /\
  (calculate_risk_score a x b default_weights <=?
   calculate_risk_score a x' b default_weights)%float = true /\
  (calculate_risk_score a b x default_weights <=?
   calculate_risk_score a b x' default_weights)%float = true.
Proof.
  intro L. unfold calculate_risk_score, default_weights.
  repeat split; apply round_max_min_rle, fadd_rle_r, fmul_pos_rle_r; try lra.
  - apply fadd_rle_l, fadd_rle_l, fmul_pos_rle_l; [lra |].
    apply fle_rle, min2_fle_mono, L.
  - apply fadd_rle_l, fadd_rle_r, fmul_pos_rle_l; [lra |]. apply fle_rle, L.
  - apply fadd_rle_r, fmul_pos_rle_l; [lra |]. apply fle_rle, L.
Qed.

Lemma calculate_risk_score_monotone_witness :
  (Fin (2 # 10) <=? Fin (5 # 10))%float = true /\
  (calculate_risk_score (Fin (2 # 10)) (Fin (3 # 10)) (Fin (4 # 10)) default_weights <=?
   calculate_risk_score (Fin (5 # 10)) (Fin (3 # 10)) (Fin (4 # 10)) default_weights)%float
  = true.
Proof.
  split; [reflexivity |].
  apply (calculate_risk_score_monotone (Fin (2 # 10)) (Fin (5 # 10))
           (Fin (3 # 10)) (Fin (4 # 10))).
  reflexivity.
Defined.

(** ** ConcentrationIndex *)

Lemma fold_Qplus_acc (ws : list Q) (a : Q) :
  fold_left Qplus ws a == a + Qsum ws.
Proof.
  unfold Qsum. revert a. induction ws as [| x ws IH]; intro a; simpl.
  - lra.
  - rewrite (IH (a + x)), (IH (0 + x)). lra.
Qed.

Lemma Qsum_cons (x : Q) (ws : list Q) : Qsum (x :: ws) == x + Qsum ws.
Proof. unfold Qsum at 1. simpl. rewrite fold_Qplus_acc. lra. Qed.



(** On finite numbers the array sum is the sum of rationals. *)
Lemma fold_fadd_Fin (ws : list Q) (a : Q) :
  fold_left fadd (map Fin ws) (Fin a) = Fin (fold_left Qplus ws a).
Proof.
  revert a. induction ws as [| x ws IH]; intro a; simpl; [reflexivity | apply IH].
Qed.

Lemma np_sum_Fin (ws : list Q) : Np.sum (map Fin ws) = Fin (Qsum ws).
Proof. apply fold_fadd_Fin. Qed.

Lemma calculate_hhi_nonempty (w : list float) :
  w <> [] ->
  calculate_hhi w =
  if (Np.sum w >? Fin 0)%float
  then Np.sum (map (fun x => x * x)%float (map (fun x => x / Np.sum w)%float w))
  else Fin 0.
Proof. destruct w; [congruence | reflexivity]. Qed.

Lemma calculate_hhi_Fin (ws : list Q) : calculate_hhi (map Fin ws) = Fin (hhi_Q ws).
Proof.
  destruct ws as [| x ws]; [reflexivity |].
  rewrite calculate_hhi_nonempty by discriminate.
  remember (x :: ws) as l eqn:El. clear El x ws.
  unfold hhi_Q. cbv zeta.
  pose proof (np_sum_Fin l) as E. revert E.
  generalize (Np.sum (map Fin l)). intros t E. subst t.
  unfold fgt. cbn [flt].
  destruct (Qlt_bool 0 (Qsum l)) eqn:P; [| reflexivity].
  apply Qlt_bool_iff in P.
  rewrite <- (np_sum_Fin (map (fun w => (w / Qsum l) * (w / Qsum l)) l)). f_equal.
  rewrite !map_map. apply map_ext. intro w. cbn [fdiv fmul].
  destruct (Qeq_bool (Qsum l) 0) eqn:Z; [| reflexivity].
  apply Qeq_bool_iff in Z. lra.
Qed.






(** ** StockRiskClassifier *)

(** The counters the function increments are the counts of the signals. *)
Lemma generate_stock_recommendation_counts (sym : string) (rs glp w v : float) :
  let r := generate_stock_recommendation sym rs glp w v in
  let sell := Spec.sell_signals rs glp w v in
  let hold := Spec.hold_signals rs glp w v in
  (recommendation r, confidence r) =
  if (2 <=? sell)%nat then ("SELL"%string, if (3 <=? sell)%nat then "HIGH" else "MEDIUM")%string
  else if ((sell =? 1) && (hold =? 0))%nat then ("REDUCE", "MEDIUM")%string
  else if (2 <=? hold)%nat then ("HOLD", "HIGH")%string
  else ("HOLD", "LOW")%string.
Proof.
  unfold generate_stock_recommendation, Spec.sell_signals, Spec.hold_signals,
    Spec.count_true.
  destruct (rs >=? Fin 7)%float, (glp <? Fin (-15))%float, (w >? Fin 35)%float,
    (v >? Fin 45)%float, (glp >? Fin 20)%float, (rs <=? Fin 3)%float,
    (v <? Fin 20)%float, (w <? Fin 25)%float; reflexivity.
Qed.

(** C9: with [sell] the number of the four sell signals (risk_score >= 7,
    gain_loss_percent < -15, portfolio_weight > 35, volatility > 45) and
    [hold] the number of the three hold signals (gain_loss_percent > 20,
    risk_score <= 3, volatility < 20 and weight < 25), the recommendation is
    SELL if sell >= 2 (confidence HIGH when sell >= 3, else MEDIUM), REDUCE if
    sell = 1 and hold = 0, HOLD with HIGH confidence if sell <= 1 and
    hold >= 2, and HOLD with LOW confidence otherwise; a holding with
    risk_score 8, loss -20%, weight 40%, volatility 50% yields SELL with
    HIGH confidence. *)
Theorem generate_stock_recommendation_rule (sym : string) (rs glp w v : float) :
  let r := generate_stock_recommendation sym rs glp w v in
  let sell := Spec.sell_signals rs glp w v in
  let hold := Spec.hold_signals rs glp w v in
  ((2 <= sell)%nat ->
   recommendation r = "SELL"%string /\
   ((3 <= sell)%nat -> confidence r = "HIGH"%string) /\
   ((sell < 3)%nat -> confidence r = "MEDIUM"%string)) /\
  (sell = 1%nat -> hold = 0%nat -> recommendation r = "REDUCE"%string) /\
  ((sell <= 1)%nat -> (2 <= hold)%nat ->
   recommendation r = "HOLD"%string /\ confidence r = "HIGH"%string) /\
  ((sell <= 1)%nat -> (hold < 2)%nat -> ~ (sell = 1%nat /\ hold = 0%nat) ->
   recommendation r = "HOLD"%string /\ confidence r = "LOW"%string) /\
  (let r' := generate_stock_recommendation sym (Fin 8) (Fin (-20)) (Fin 40) (Fin 50) in
   Spec.sell_signals (Fin 8) (Fin (-20)) (Fin 40) (Fin 50) = 4%nat /\
   recommendation r' = "SELL"%string /\ confidence r' = "HIGH"%string).
Proof.
  cbv zeta.
  pose proof (generate_stock_recommendation_counts sym rs glp w v) as E.
  cbv zeta in E.
  set (r := generate_stock_recommendation sym rs glp w v) in *.
  set (sell := Spec.sell_signals rs glp w v) in *.
  set (hold := Spec.hold_signals rs glp w v) in *.
  clearbody r sell hold.
  split; [| split; [| split; [| split; [| repeat split; reflexivity]]]].
  - intro H.
    assert (H2 : (2 <=? sell)%nat = true) by (apply Nat.leb_le; lia).
    rewrite H2 in E. injection E as R C. split; [exact R | split]; intro H3.
    + rewrite C. destruct sell as [| [| [| s]]]; try lia; reflexivity.
    + rewrite C. destruct sell as [| [| [| s]]]; try lia; reflexivity.
  - intros -> ->. simpl in E. now inversion E.
  - intros H1 H2.
    assert (B2 : (2 <=? sell)%nat = false) by (apply Nat.leb_gt; lia).
    assert (B3 : (hold =? 0)%nat = false) by (apply Nat.eqb_neq; lia).
    assert (B4 : (2 <=? hold)%nat = true) by (apply Nat.leb_le; lia).
    rewrite B2, B3, B4, andb_false_r in E. now inversion E.
  - intros H1 H2 H3.
    assert (B2 : (2 <=? sell)%nat = false) by (apply Nat.leb_gt; lia).
    assert (B4 : (2 <=? hold)%nat = false) by (apply Nat.leb_gt; lia).
    assert (B3 : ((sell =? 1) && (hold =? 0))%nat = false).
    { apply andb_false_iff.
      destruct (Nat.eq_dec sell 1) as [S1 | S1]; [right | left]; apply Nat.eqb_neq; lia. }
    rewrite B2, B3, B4 in E. now inversion E.
Qed.

Lemma generate_stock_recommendation_rule_witness :
  let r := generate_stock_recommendation "msft" (Fin 7) (Fin 5) (Fin 10) (Fin 30) in
  Spec.sell_signals (Fin 7) (Fin 5) (Fin 10) (Fin 30) = 1%nat /\
  Spec.hold_signals (Fin 7) (Fin 5) (Fin 10) (Fin 30) = 0%nat /\
  recommendation r = "REDUCE"%string.
Proof.
  split; [reflexivity | split; [reflexivity |]].
  apply (generate_stock_recommendation_rule "msft" (Fin 7) (Fin 5) (Fin 10) (Fin 30));
    reflexivity.
Defined.

(** ** ScenarioSimulator *)

Lemma new_risk_range (risk delta : float) :
  exists q, new_risk risk delta = Fin q /\ 1 <= q /\ q <= 10.
Proof.
  unfold new_risk.
  destruct (clamp_range 1 10 (risk + delta)%float) as (m & E & L & H); [lra |].
  rewrite E. apply (round_range m 1 10 2); assumption.
Qed.

Lemma max2_zero_nonneg (x : float) : (Fin 0 <=? Py.max2 (Fin 0) x)%float = true.
Proof.
  unfold Py.max2, fgt. destruct x; qcases; qprop; auto; lra.
Qed.

(** C10: for every scenario_type other than "add_stock", "remove_stock" and
    "increase_position" (any unrecognized string, not only
    "decrease_position") [simulate_scenario] takes the decrease-position
    branch: it raises nothing, the risk delta is -0.2, the new risk score is
    round(clamp(current_risk_score - 0.2, 1, 10), 2), and the reported new
    value is max(0, current_portfolio_value - change_amount), which is never
    negative. *)
Theorem simulate_scenario_else_branch (ty sym : string) (cur risk change : float) :
  ty <> "add_stock"%string -> ty <> "remove_stock"%string ->
  ty <> "increase_position"%string ->
  exists r,
    simulate_scenario ty cur risk sym change = Ok r /\
    scenario r = [Lit "Decrease "; Str sym; Lit " by $"; Num ",.0f" change] /\
    impact r = "POSITIVE"%string /\
    feq (risk_change r) (Fin (- (2 # 10))) /\
    new_risk_score r =
      Py.round (Spec.clamp (risk - Fin (2 # 10))%float (Fin 1) (Fin 10)) 2 /\
    new_value r = Py.max2 (Fin 0) (cur - change)%float /\
    (Fin 0 <=? new_value r)%float = true.
Proof.
  intros A R I. unfold simulate_scenario.
  apply String.eqb_neq in A, R, I. rewrite A, R, I.
  eexists; split; [reflexivity |]. cbn [scenario impact risk_change new_risk_score new_value].
  repeat split.
  apply max2_zero_nonneg.
Qed.

Lemma simulate_scenario_else_branch_witness :
  exists r,
    simulate_scenario "rebalance" (Fin 1000) (Fin 5) "AAPL" (Fin 2500) = Ok r /\
    feq (risk_change r) (Fin (- (2 # 10))) /\
    feq (new_risk_score r) (Fin (48 # 10)) /\
    feq (new_value r) (Fin 0).
Proof.
  destruct (simulate_scenario_else_branch "rebalance" "AAPL" (Fin 1000) (Fin 5) (Fin 2500))
    as (r & E & _ & _ & D & N & V & _); try discriminate.
  exists r. split; [exact E |]. split; [exact D |].
  rewrite N, V. split; reflexivity.
Defined.

Lemma truediv_raises (a b : float) :
  feqb b (Fin 0) = true -> Py.truediv a b = Raise ZeroDivisionError.
Proof.
  destruct b as [q | | |]; simpl; try discriminate. now intros ->.
Qed.

Lemma truediv_ok (a b : float) :
  feqb b (Fin 0) = false -> Py.truediv a b = Ok (a / b)%float.
Proof.
  destruct b as [q | | |]; simpl; try reflexivity. now intros ->.
Qed.

(** The add-stock branch away from a zero new value. *)
Lemma simulate_scenario_add_stock_ok (sym : string) (cur risk change : float) :
  feqb (cur + change)%float (Fin 0) = false ->
  exists r,
    simulate_scenario "add_stock" cur risk sym change = Ok r /\
    scenario r = [Lit "Add $"; Num ",.0f" change; Lit " to "; Str sym] /\
    new_value r = (cur + change)%float /\
    new_risk_score r = new_risk risk (Spec.add_stock_delta sym).
Proof.
  intro NZ. unfold simulate_scenario. cbn [String.eqb Ascii.eqb Bool.eqb].
  rewrite (truediv_ok _ _ NZ). cbn [Py.bind].
  eexists; split; [reflexivity |]. repeat split.
Qed.

(** The add-stock branch at a zero new value: the division raises. *)
Lemma simulate_scenario_add_stock_raises (sym : string) (cur risk change : float) :
  feqb (cur + change)%float (Fin 0) = true ->
  simulate_scenario "add_stock" cur risk sym change = Raise ZeroDivisionError.
Proof.
  intro Z. unfold simulate_scenario. cbn [String.eqb Ascii.eqb Bool.eqb].
  now rewrite (truediv_raises _ _ Z).
Qed.

(** C7: an add-stock scenario sets the projected new value to
    current_portfolio_value + change_amount and the new risk score to
    round(clamp(current_risk_score + delta, 1, 10), 2), with delta -0.8 for
    the index funds SPY/VTI/QQQ, +0.6 for TSLA/NVDA/COIN and +0.2 otherwise
    (the symbol is compared in upper case); $10,000 of SPY on $100,000 at risk 5.0 gives $110,000 and 4.2, of TSLA
    gives 5.6.  The code does so only while the new value is not 0: at a
    new value of 0 (here: an empty portfolio and a zero amount) the unused
    [weight_change = change_amount / new_value] raises ZeroDivisionError. *)
Theorem simulate_scenario_add_stock (sym : string) (cur risk change : float) :
  simulate_scenario "add_stock" (Fin 0) (Fin 5) "SPY" (Fin 0) = Raise ZeroDivisionError /\
  (feqb (cur + change)%float (Fin 0) = true ->
   simulate_scenario "add_stock" cur risk sym change = Raise ZeroDivisionError) /\
  (feqb (cur + change)%float (Fin 0) = false ->
   exists r,
     simulate_scenario "add_stock" cur risk sym change = Ok r /\
     new_value r = (cur + change)%float /\
     new_risk_score r =
       Py.round (Spec.clamp (risk + Spec.add_stock_delta sym)%float (Fin 1) (Fin 10)) 2) /\
  (Spec.is_index_fund sym = true -> Spec.add_stock_delta sym = Fin (- (8 # 10))) /\
  (Spec.is_index_fund sym = false -> Spec.is_high_volatility sym = true ->
   Spec.add_stock_delta sym = Fin (6 # 10)) /\
  (Spec.is_index_fund sym = false -> Spec.is_high_volatility sym = false ->
   Spec.add_stock_delta sym = Fin (2 # 10)) /\
  (exists r,
     simulate_scenario "add_stock" (Fin 100000) (Fin 5) "SPY" (Fin 10000) = Ok r /\
     feq (new_value r) (Fin 110000) /\ feq (new_risk_score r) (Fin (42 # 10))) /\
  (exists r,
     simulate_scenario "add_stock" (Fin 100000) (Fin 5) "TSLA" (Fin 10000) = Ok r /\
     feq (new_risk_score r) (Fin (56 # 10))).
Proof.
  split; [reflexivity |].
  split.
  { apply simulate_scenario_add_stock_raises. }
  split.
  { intro NZ. destruct (simulate_scenario_add_stock_ok sym cur risk change NZ)
      as (r & E & _ & V & N).
    exists r. auto. }
  unfold Spec.add_stock_delta.
  split; [now intros -> |].
  split; [now intros -> -> |].
  split; [now intros -> -> |].
  split; eexists; (split; [reflexivity |]); repeat split.
Qed.

Lemma simulate_scenario_add_stock_witness :
  exists r,
    simulate_scenario "add_stock" (Fin 2000) (Fin 1) "vti" (Fin 500) = Ok r /\
    new_value r = (Fin 2000 + Fin 500)%float /\
    feq (new_risk_score r) (Fin 1).
Proof.
  destruct (simulate_scenario_add_stock "vti" (Fin 2000) (Fin 1) (Fin 500))
    as (_ & _ & H & _).
  destruct (H eq_refl) as (r & E & V & N).
  exists r. split; [exact E |]. split; [exact V |].
  rewrite N. reflexivity.
Defined.

(** *** The linear scan of [min(..., key=...)] *)

Lemma flt_trans (x y z : float) :
  (x <? y)%float = true -> (y <? z)%float = true -> (x <? z)%float = true.
Proof.
  destruct x, y, z; simpl; try congruence. intros. qprop. lra.
Qed.

Section MinBy.

Context {A : Type} (key : A -> float).

Let step (best y : A) : A := if (key y <? key best)%float then y else best.

Lemma min_by_scan (l done : list A) (best : A) :
  (forall y, In y (done ++ l) -> is_nan (key y) = false) ->
  Spec.first_lowest key done best ->
  Spec.first_lowest key (done ++ l) (fold_left step l best).
Proof.
  revert done best. induction l as [| y l IH]; intros done best NN FL.
  - now rewrite app_nil_r.
  - cbn [fold_left].
    replace (done ++ y :: l)%list with ((done ++ [y]) ++ l)%list in *
      by (rewrite <- app_assoc; reflexivity).
    apply IH; [exact NN |].
    destruct FL as (pre & post & E & Hpre & Hpost).
    assert (Nb : is_nan (key best) = false).
    { apply NN. subst done. rewrite !in_app_iff. left; left; right; now left. }
    assert (Ny : is_nan (key y) = false).
    { apply NN. rewrite !in_app_iff. left; right; now left. }
    unfold step. destruct (key y <? key best)%float eqn:C.
    + exists done, []. split; [reflexivity |]. split; [| intros z []].
      intros z Hz. subst done. apply in_app_iff in Hz. destruct Hz as [Hz | [<- | Hz]].
      * eapply flt_trans; [exact C | now apply Hpre].
      * exact C.
      * eapply flt_fle_trans; [exact C | now apply Hpost].
    + exists pre, (post ++ [y])%list. split.
      { subst done. rewrite <- app_assoc. reflexivity. }
      split; [exact Hpre |].
      intros z Hz. apply in_app_iff in Hz. destruct Hz as [Hz | [<- | []]].
      * now apply Hpost.
      * now apply flt_false_fle.
Qed.

(** On keys that are numbers, [min(l, key=...)] is the first item of [l]
    with the lowest key. *)
Lemma min_by_first_lowest (l : list A) (x : A) :
  (forall y, In y l -> is_nan (key y) = false) ->
  Py.min_by key l = Ok x -> Spec.first_lowest key l x.
Proof.
  destruct l as [| h l]; [discriminate |].
  intros NN E. injection E as <-.
  apply (min_by_scan l [h] h NN).
  exists [], []. split; [reflexivity |]. split; intros z [].
Qed.

End MinBy.

(** Whatever the branch, a scenario that is returned carries a finite new
    risk score of [[1, 10]]. *)
Lemma simulate_scenario_new_risk (ty sym : string) (cur risk change : float)
    (r : scenario_result) :
  simulate_scenario ty cur risk sym change = Ok r ->
  exists q, new_risk_score r = Fin q /\ 1 <= q /\ q <= 10.
Proof.
  unfold simulate_scenario.
  destruct (ty =? "add_stock")%string.
  { destruct (Py.truediv change (cur + change)%float); [| discriminate].
    cbn [Py.bind]. intro E. injection E as <-. apply new_risk_range. }
  destruct (ty =? "remove_stock")%string.
  { intro E. injection E as <-. apply new_risk_range. }
  destruct (ty =? "increase_position")%string;
    intro E; injection E as <-; apply new_risk_range.
Qed.

(** C8: [run_multiple_scenarios] produces exactly three scenarios in order
    (add $10,000 of SPY, increase the largest holding by $5,000, decrease
    the largest holding by 30% of its value) and its recommendation names
    the scenario with the lowest new_risk_score, the earliest one on a tie.
    The code does so for every portfolio value but -10,000, where the
    add-stock simulation divides by a zero new value and raises
    ZeroDivisionError. *)
Theorem run_multiple_scenarios_recommends_lowest (pv rs lhv : float) (lh : string) :
  run_multiple_scenarios (Fin (-10000)) (Fin 5) "AAPL" (Fin 3000)
    = Raise ZeroDivisionError /\
  (feqb (pv + Fin 10000)%float (Fin 0) = true ->
   run_multiple_scenarios pv rs lh lhv = Raise ZeroDivisionError) /\
  (feqb (pv + Fin 10000)%float (Fin 0) = false ->
   exists s1 s2 s3 best,
     run_multiple_scenarios pv rs lh lhv =
       Ok {| scenarios := [s1; s2; s3];
            ScenarioAgent.recommendation := recommendation_naming best |} /\
     simulate_scenario "add_stock" pv rs "SPY" (Fin 10000) = Ok s1 /\
     simulate_scenario "increase_position" pv rs lh (Fin 5000) = Ok s2 /\
     simulate_scenario "decrease_position" pv rs lh (lhv * Fin (3 # 10))%float = Ok s3 /\
     Spec.first_lowest new_risk_score [s1; s2; s3] best).
Proof.
  split; [reflexivity |].
  split.
  { intro Z. unfold run_multiple_scenarios.
    now rewrite (simulate_scenario_add_stock_raises "SPY" pv rs (Fin 10000) Z). }
  intro NZ. unfold run_multiple_scenarios.
  destruct (simulate_scenario_add_stock_ok "SPY" pv rs (Fin 10000) NZ) as (s1 & E1 & _).
  destruct (simulate_scenario "increase_position" pv rs lh (Fin 5000)) as [s2 |] eqn:E2;
    [| discriminate E2].
  destruct (simulate_scenario "decrease_position" pv rs lh (lhv * Fin (3 # 10))%float)
    as [s3 |] eqn:E3; [| discriminate E3].
  rewrite E1. cbn [Py.bind].
  unfold get_scenario_recommendation.
  destruct (Py.min_by new_risk_score [s1; s2; s3]) as [best |] eqn:M; [| discriminate M].
  cbn [Py.bind].
  exists s1, s2, s3, best. repeat split.
  apply min_by_first_lowest; [| exact M].
  intros y [<- | [<- | [<- | []]]].
  - destruct (simulate_scenario_new_risk _ _ _ _ _ _ E1) as (q & -> & _). reflexivity.
  - destruct (simulate_scenario_new_risk _ _ _ _ _ _ E2) as (q & -> & _). reflexivity.
  - destruct (simulate_scenario_new_risk _ _ _ _ _ _ E3) as (q & -> & _). reflexivity.
Qed.

Lemma run_multiple_scenarios_recommends_lowest_witness :
  exists s1 s2 s3 best,
    run_multiple_scenarios (Fin 100000) (Fin 5) "AAPL" (Fin 30000) =
      Ok {| scenarios := [s1; s2; s3];
            ScenarioAgent.recommendation := recommendation_naming best |} /\
    Spec.first_lowest new_risk_score [s1; s2; s3] best.
Proof.
  destruct (run_multiple_scenarios_recommends_lowest (Fin 100000) (Fin 5) (Fin 30000) "AAPL")
    as (_ & _ & H).
  destruct (H eq_refl) as (s1 & s2 & s3 & best & E & _ & _ & _ & L).
  exists s1, s2, s3, best. split; [exact E | exact L].
Defined.

(** ** ReturnSeries *)

Lemma returns_length (prices : list float) :
  List.length (Np.zip_with fdiv (Np.diff prices) (removelast prices))
  = (List.length prices - 1)%nat.
Proof.
  induction prices as [| x t IH]; [reflexivity |].
  destruct t as [| y t']; [reflexivity |].
  change (Np.diff (x :: y :: t')) with ((y - x)%float :: Np.diff (y :: t')).
  change (removelast (x :: y :: t')) with (x :: removelast (y :: t')).
  cbn [Np.zip_with List.length]. rewrite IH. cbn [List.length]. lia.
Qed.

Lemma returns_nth (prices : list float) (i : nat) :
  (S i < List.length prices)%nat ->
  nth i (Np.zip_with fdiv (Np.diff prices) (removelast prices)) NaN
  = ((nth (S i) prices NaN - nth i prices NaN) / nth i prices NaN)%float.
Proof.
  revert i. induction prices as [| x t IH]; intros i L; [cbn in L; lia |].
  destruct t as [| y t']; [cbn in L; lia |].
  change (Np.diff (x :: y :: t')) with ((y - x)%float :: Np.diff (y :: t')).
  change (removelast (x :: y :: t')) with (x :: removelast (y :: t')).
  cbn [Np.zip_with]. destruct i as [| i]; [reflexivity |].
  cbn [nth]. rewrite IH; [reflexivity |]. cbn [List.length] in *. lia.
Qed.

(** Division by a zero never gives a finite value. *)
Lemma fdiv_zero_not_finite (x y : float) :
  feqb y (Fin 0) = true -> is_finite (x / y)%float = false.
Proof.
  destruct y as [b | | |]; cbn [feqb]; try discriminate. intro Z.
  destruct x as [a | | |]; cbn [fdiv]; try reflexivity.
  - rewrite Z. unfold inf_of_sign. destruct (Qnum a); reflexivity.
  - destruct (Qlt_bool b 0); reflexivity.
  - destruct (Qlt_bool b 0); reflexivity.
Qed.

(** C3, as the code has it: [calculate_returns] does not guard the division
    by a zero price.  For every price series the output has one entry per
    pair of consecutive prices (n - 1 entries, nothing is skipped), entry i
    is (p[i+1] - p[i]) / p[i] under numpy's IEEE division, and so at a zero
    price p[i] that is not the last one entry i is +inf, -inf or NaN: not a
    finite value, in particular not zero. *)
Theorem calculate_returns_unguarded (prices : list float) (i : nat) :
  List.length (calculate_returns prices) = (List.length prices - 1)%nat /\
  ((S i < List.length prices)%nat ->
   nth i (calculate_returns prices) NaN
   = ((nth (S i) prices NaN - nth i prices NaN) / nth i prices NaN)%float) /\
  ((S i < List.length prices)%nat ->
   feqb (nth i prices NaN) (Fin 0) = true ->
   is_finite (nth i (calculate_returns prices) NaN) = false).
Proof.
  unfold calculate_returns.
  destruct (List.length prices <? 2)%nat eqn:S.
  - apply Nat.ltb_lt in S. repeat split; intros; try lia.
    cbn [List.length]. lia.
  - split; [apply returns_length |].
    split; [apply returns_nth |].
    intros L Z. rewrite returns_nth by exact L. now apply fdiv_zero_not_finite.
Qed.

Lemma calculate_returns_unguarded_witness :
  nth 1 (calculate_returns [Fin 4; Fin 0; Fin 0]) NaN = (((Fin 0) - (Fin 0)) / Fin 0)%float /\
  is_finite (nth 1 (calculate_returns [Fin 4; Fin 0; Fin 0]) NaN) = false.
Proof.
  destruct (calculate_returns_unguarded [Fin 4; Fin 0; Fin 0] 1) as (_ & N & Z).
  split; [apply N; cbn; lia | apply Z; [cbn; lia | reflexivity]].
Defined.

(** C3 as stated fails: the zero price at position 1 of [1, 0, 5] is not the
    last one, and the return computed from it is +inf. *)
Lemma calculate_returns_zero_price_counterexample :
  calculate_returns [Fin 1; Fin 0; Fin 5] = [Fin (-1); PInf].
Proof. reflexivity. Qed.

(** ** VolatilityEstimator *)

(** [np.std] with its default [ddof = 0] is the population standard
    deviation. *)
Lemma np_std_population (sqrt : float -> float) (xs : list float) :
  Np.std sqrt xs = Spec.population_stddev sqrt xs.
Proof.
  unfold Np.std, Np.var, Np.mean, Np.sum, Spec.population_stddev.
  now rewrite map_map, !length_map.
Qed.

(** C4: [calculate_volatility] returns exactly 0.0 when the return series
    has fewer than 2 elements, in particular for every price series of
    length < 2, and otherwise the population standard deviation (n
    denominator) of the returns multiplied by sqrt(252). *)
Theorem calculate_volatility_spec (sqrt : float -> float) (prices : list float) :
  ((List.length prices < 2)%nat -> calculate_volatility sqrt prices = Fin 0) /\
  ((List.length (calculate_returns prices) < 2)%nat ->
   calculate_volatility sqrt prices = Fin 0) /\
  ((2 <= List.length (calculate_returns prices))%nat ->
   calculate_volatility sqrt prices
   = (Spec.population_stddev sqrt (calculate_returns prices) * sqrt (Fin 252))%float).
Proof.
  unfold calculate_volatility. split; [| split]; intro L.
  - unfold calculate_returns. apply Nat.ltb_lt in L. now rewrite L.
  - apply Nat.ltb_lt in L. now rewrite L.
  - apply Nat.ltb_ge in L. rewrite L. now rewrite np_std_population.
Qed.

Lemma calculate_volatility_spec_witness :
  calculate_volatility Np.sqrt15 [Fin 100] = Fin 0 /\
  calculate_volatility Np.sqrt15 [Fin 100; Fin 110] = Fin 0 /\
  calculate_volatility Np.sqrt15 [Fin 100; Fin 110; Fin 99; Fin 99]
  = (Spec.population_stddev Np.sqrt15 [Fin (1 # 10); Fin (- (1 # 10)); Fin 0]
     * Np.sqrt15 (Fin 252))%float.
Proof.
  split; [| split].
  - apply (calculate_volatility_spec Np.sqrt15 [Fin 100]). cbn. lia.
  - apply (calculate_volatility_spec Np.sqrt15 [Fin 100; Fin 110]). cbn. lia.
  - destruct (calculate_volatility_spec Np.sqrt15 [Fin 100; Fin 110; Fin 99; Fin 99])
      as (_ & _ & H).
    rewrite H by (cbn; lia). vm_compute. reflexivity.
Defined.

(** ** CorrelationAggregator *)

Lemma Qsum_unit_bounds (qs : list Q) :
  Forall (fun q => 0 <= q /\ q <= 1) qs ->
  0 <= Qsum qs /\ Qsum qs <= inject_Z (Z.of_nat (List.length qs)).
Proof.
  induction 1 as [| q qs [L H] _ [IL IH]].
  - split; apply Qle_refl.
  - rewrite Qsum_cons. cbn [List.length]. rewrite Nat2Z.inj_succ. unfold Z.succ.
    rewrite inject_Z_plus. change (inject_Z 1) with 1. lra.
Qed.

Lemma unit01_list (l : list float) :
  Forall unit01 l -> exists qs, l = map Fin qs /\ Forall (fun q => 0 <= q /\ q <= 1) qs.
Proof.
  induction 1 as [| x l (q & -> & B) _ (qs & -> & F)].
  - now exists [].
  - exists (q :: qs). split; [reflexivity | now constructor].
Qed.

(** The mean of numbers of the unit interval is in the unit interval. *)
Lemma mean_unit01 (l : list float) :
  l <> [] -> Forall unit01 l -> unit01 (Np.mean l).
Proof.
  intros NE F. destruct (unit01_list l F) as (qs & -> & B).
  destruct (Qsum_unit_bounds qs B) as [L H].
  unfold Np.mean. rewrite np_sum_Fin, length_map. cbn [fdiv].
  assert (P : 0 < inject_Z (Z.of_nat (List.length qs))).
  { destruct qs; [now contradiction NE |]. change 0 with (inject_Z 0). rewrite <- Zlt_Qlt.
    cbn [List.length]. lia. }
  destruct (Qeq_bool (inject_Z (Z.of_nat (List.length qs))) 0) eqn:Z.
  { apply Qeq_bool_iff in Z. lra. }
  eexists; split; [reflexivity |]. split.
  - apply Qle_shift_div_l; [exact P | lra].
  - apply Qle_shift_div_r; [exact P | lra].
Qed.

(** Clipping to [[-1, 1]] and then replacing NaN by 0 leaves a finite number
    of [[-1, 1]], whatever the input. *)
Lemma nan_to_num_clip_range (v : float) :
  exists q, Np.nan_to_num (Fin 0) (Np.clip (Fin (-1)) (Fin 1) v) = Fin q /\
            -1 <= q /\ q <= 1.
Proof.
  unfold Np.clip. destruct v as [a | | |]; qcases; cbn [Np.nan_to_num]; qprop;
    try discriminate; eexists; (split; [reflexivity |]); lra.
Qed.

Lemma zip_with_length {A B C : Type} (f : A -> B -> C) (a : list A) (b : list B) :
  List.length (Np.zip_with f a b) = Nat.min (List.length a) (List.length b).
Proof.
  revert b. induction a as [| x a IH]; intros [| y b]; cbn; auto.
Qed.

Lemma zip_with_Forall {A B C : Type} (f : A -> B -> C) (P : C -> Prop)
    (a : list A) (b : list B) :
  (forall x y, In x a -> P (f x y)) -> Forall P (Np.zip_with f a b).
Proof.
  revert b. induction a as [| x a IH]; intros [| y b] H; cbn; constructor.
  - apply H. now left.
  - apply IH. intros. apply H. now right.
Qed.

Lemma corrcoef_square (sqrt : float -> float) (m : list (list float)) :
  square (List.length m) (Np.corrcoef sqrt m).
Proof.
  unfold Np.corrcoef.
  set (n := List.length m).
  assert (C : square n (Np.cov m)).
  { unfold Np.cov, square. cbv zeta. rewrite !length_map. split; [reflexivity |].
    apply Forall_map, Forall_forall. intros row _. now rewrite !length_map. }
  destruct C as [Cl Cr]. cbv zeta.
  set (stddev := map sqrt _).
  assert (Sl : List.length stddev = n).
  { unfold stddev. now rewrite !length_map, length_seq. }
  split.
  - rewrite !length_map, zip_with_length, Cl, Sl. apply Nat.min_id.
  - apply Forall_map, Forall_map, zip_with_Forall.
    intros row s Hrow. rewrite Forall_forall in Cr.
    rewrite length_map, zip_with_length, length_map, (Cr row Hrow), Sl.
    apply Nat.min_id.
Qed.

Lemma corrcoef_entries (sqrt : float -> float) (m : list (list float)) :
  Forall (Forall (fun v => exists q, v = Fin q /\ -1 <= q /\ q <= 1))
    (map (map (Np.nan_to_num (Fin 0))) (Np.corrcoef sqrt m)).
Proof.
  unfold Np.corrcoef. cbv zeta. rewrite map_map.
  apply Forall_map, Forall_forall. intros row _.
  rewrite map_map. apply Forall_map, Forall_forall. intros v _.
  apply nan_to_num_clip_range.
Qed.

(** Every entry read from the upper triangle is in the unit interval once
    its absolute value is taken. *)
Lemma upper_triangle_unit01 (M : list (list float)) (n : nat) :
  square n M ->
  Forall (Forall (fun v => exists q, v = Fin q /\ -1 <= q /\ q <= 1)) M ->
  Forall unit01
    (flat_map (fun i =>
       map (fun j => fabs (nth j (nth i M []) NaN)) (seq (i + 1) (n - (i + 1))))
       (seq 0 n)).
Proof.
  intros [Ml Mr] E. apply Forall_forall. intros x Hx.
  apply in_flat_map in Hx. destruct Hx as (i & Hi & Hx).
  apply in_map_iff in Hx. destruct Hx as (j & <- & Hj).
  apply in_seq in Hi, Hj.
  assert (Ri : In (nth i M []) M) by (apply nth_In; lia).
  rewrite Forall_forall in Mr, E.
  assert (Rj : In (nth j (nth i M []) NaN) (nth i M [])).
  { apply nth_In. rewrite (Mr _ Ri). lia. }
  pose proof (E _ Ri) as Erow. rewrite Forall_forall in Erow.
  destruct (Erow _ Rj) as (q & -> & L & H).
  exists (Qabs q). split; [reflexivity |]. split; [apply Qabs_nonneg |].
  apply Qabs_Qle_condition. lra.
Qed.

Lemma square_map (f : float -> float) (n : nat) (M : list (list float)) :
  square n M -> square n (map (map f) M).
Proof.
  intros [L R]. split; [now rewrite length_map |].
  apply Forall_map. rewrite Forall_forall in *. intros row H.
  rewrite length_map. now apply R.
Qed.

Lemma unit01_zero : unit01 (Fin 0).
Proof. exists 0. split; [reflexivity | lra]. Qed.

Lemma nonempty_true {A : Type} (l : list A) : nonempty l = true -> l <> [].
Proof. destruct l; [discriminate | discriminate]. Qed.

(** Away from the failing case the function returns a number of [[0, 1]]:
    with fewer than two series, or with a series that is not empty. *)
Lemma calculate_correlation_ok (sqrt : float -> float) (rm : list (list float)) :
  (List.length rm < 2)%nat \/ filter nonempty rm <> [] ->
  exists r, calculate_correlation sqrt rm = Ok r /\ unit01 r.
Proof.
  intro H. unfold calculate_correlation.
  destruct (List.length rm <? 2)%nat eqn:L2.
  { exists (Fin 0). split; [reflexivity | apply unit01_zero]. }
  apply Nat.ltb_ge in L2. destruct H as [H | H]; [lia |].
  destruct (filter nonempty rm) as [| r0 F] eqn:EF; [congruence |].
  cbn [map Py.min_nat Py.bind].
  set (min_len := fold_left Nat.min _ _).
  destruct (min_len <? 2)%nat.
  { exists (Fin 0). split; [reflexivity | apply unit01_zero]. }
  set (trimmed := firstn min_len r0 :: map (firstn min_len) F).
  destruct (List.length trimmed <? 2)%nat.
  { exists (Fin 0). split; [reflexivity | apply unit01_zero]. }
  cbv zeta.
  set (corr_matrix := map (map (Np.nan_to_num (Fin 0))) (Np.corrcoef sqrt trimmed)).
  set (upper_triangle := flat_map _ _).
  destruct (nonempty upper_triangle) eqn:NE.
  - eexists; split; [reflexivity |].
    apply mean_unit01; [now apply nonempty_true |].
    apply upper_triangle_unit01.
    + split; [reflexivity |].
      destruct (square_map (Np.nan_to_num (Fin 0)) _ _ (corrcoef_square sqrt trimmed))
        as [Sl Sr].
      fold corr_matrix in Sl, Sr. rewrite Sl. exact Sr.
    + apply corrcoef_entries.
  - exists (Fin 0). split; [reflexivity | apply unit01_zero].
Qed.

(** With fewer than two non-empty series left (and no failure), the result
    is 0.0. *)
Lemma calculate_correlation_few (sqrt : float -> float) (rm : list (list float)) :
  (List.length rm < 2)%nat \/ filter nonempty rm <> [] ->
  (List.length (filter nonempty rm) < 2)%nat ->
  calculate_correlation sqrt rm = Ok (Fin 0).
Proof.
  intros H Few. unfold calculate_correlation.
  destruct (List.length rm <? 2)%nat eqn:L2; [reflexivity |].
  apply Nat.ltb_ge in L2. destruct H as [H | H]; [lia |].
  destruct (filter nonempty rm) as [| r0 F] eqn:EF; [congruence |].
  cbn [map Py.min_nat Py.bind].
  destruct (fold_left Nat.min _ _ <? 2)%nat; [reflexivity |].
  rewrite <- (length_map (firstn (fold_left Nat.min (map (@List.length float) F)
                                   (List.length r0)))) in Few.
  apply Nat.ltb_lt in Few. cbn [map] in Few. now rewrite Few.
Qed.

Lemma calculate_correlation_raises (sqrt : float -> float) (rm : list (list float)) :
  (2 <= List.length rm)%nat -> filter nonempty rm = [] ->
  calculate_correlation sqrt rm = Raise ValueError.
Proof.
  intros L E. unfold calculate_correlation.
  apply Nat.ltb_ge in L. now rewrite L, E.
Qed.

(** C2: [calculate_correlation] returns a real number of [[0, 1]], never
    NaN, whatever the series (ragged, zero variance, infinities) and
    whatever [np.sqrt] gives, and 0.0 when fewer than 2 non-empty series
    remain; but not for every input: given two or more series that are all
    empty, [min()] is called on an empty sequence and ValueError is raised
    before the check on the number of remaining series is reached. *)
Theorem calculate_correlation_all_empty (sqrt : float -> float)
    (rm : list (list float)) :
  calculate_correlation sqrt [[]; []] = Raise ValueError /\
  ((2 <= List.length rm)%nat -> filter nonempty rm = [] ->
   calculate_correlation sqrt rm = Raise ValueError) /\
  ((List.length rm < 2)%nat \/ filter nonempty rm <> [] ->
   exists q, calculate_correlation sqrt rm = Ok (Fin q) /\ 0 <= q /\ q <= 1) /\
  ((List.length rm < 2)%nat \/ filter nonempty rm <> [] ->
   (List.length (filter nonempty rm) < 2)%nat ->
   calculate_correlation sqrt rm = Ok (Fin 0)).
Proof.
  split; [reflexivity |].
  split; [apply calculate_correlation_raises |].
  split; [| apply calculate_correlation_few].
  intro H. destruct (calculate_correlation_ok sqrt rm H) as (r & E & q & -> & B).
  now exists q.
Qed.

Lemma calculate_correlation_all_empty_witness :
  (exists q,
     calculate_correlation Np.sqrt15
       [[Fin 1; Fin 2; Fin 3]; []; [Fin 2; Fin 4; Fin 7; Fin 1]] = Ok (Fin q) /\
     0 <= q /\ q <= 1) /\
  calculate_correlation Np.sqrt15 [[]; [Fin 1; Fin 2]; []] = Ok (Fin 0) /\
  calculate_correlation Np.sqrt15 [[]; []; []] = Raise ValueError.
Proof.
  split; [| split].
  - apply (calculate_correlation_all_empty Np.sqrt15
             [[Fin 1; Fin 2; Fin 3]; []; [Fin 2; Fin 4; Fin 7; Fin 1]]).
    right. discriminate.
  - apply (calculate_correlation_all_empty Np.sqrt15 [[]; [Fin 1; Fin 2]; []]).
    + right. discriminate.
    + cbn. lia.
  - apply (calculate_correlation_all_empty Np.sqrt15 [[]; []; []]).
    + cbn. lia.
    + reflexivity.
Defined.

(** ** PortfolioRiskAnalyzer *)

Lemma mapM_ok {A B : Type} (f : A -> result B) (g : A -> B) (l : list A) :
  (forall x, f x = Ok (g x)) -> mapM f l = Ok (map g l).
Proof.
  intro H. induction l as [| x l IH]; [reflexivity |].
  cbn [mapM map]. now rewrite H, IH.
Qed.

Lemma Qsum_zeros {A : Type} (l : list A) : Qsum (map (fun _ => 0) l) == 0.
Proof.
  induction l as [| x l IH]; [reflexivity |].
  cbn [map]. rewrite Qsum_cons, IH. lra.
Qed.

(** Weights that are all 0 have concentration 0.0. *)
Lemma calculate_hhi_zeros {A : Type} (l : list A) :
  calculate_hhi (map (fun _ => Fin 0) l) = Fin 0.
Proof.
  destruct l as [| x l]; [reflexivity |].
  rewrite calculate_hhi_nonempty by discriminate.
  replace (map (fun _ : A => Fin 0) (x :: l)) with (map Fin (map (fun _ : A => 0) (x :: l)))
    by (now rewrite map_map).
  rewrite np_sum_Fin. unfold fgt. cbn [flt].
  pose proof (Qsum_zeros (x :: l)) as Z.
  destruct (Qlt_bool 0 (Qsum (map (fun _ : A => 0) (x :: l)))) eqn:P; [| reflexivity].
  apply Qlt_bool_iff in P. lra.
Qed.

Lemma round_zero (x : float) (n : nat) : feq x (Fin 0) -> feq (Py.round x n) (Fin 0).
Proof.
  destruct x as [q | | |]; cbn [feq Py.round]; try contradiction. intro Z.
  rewrite (round_half_even_comp (q * Py.pow10 n) (inject_Z 0)) by (rewrite Z; ring).
  rewrite round_half_even_Z. pose proof (pow10_pos n). field. lra.
Qed.

(** The series collected for the correlation are never empty. *)
Lemma all_returns_nonempty (hs : list holding_with_value) :
  Forall (fun r => nonempty r = true)
    (flat_map (fun h =>
       let prices := get (historical_prices (base h)) [] in
       if nonempty prices && nonempty (calculate_returns prices)
       then [calculate_returns prices] else []) hs).
Proof.
  apply Forall_forall. intros r Hr. apply in_flat_map in Hr.
  destruct Hr as (h & _ & Hr). cbv zeta in Hr.
  destruct (nonempty (get (historical_prices (base h)) []) &&
            nonempty (calculate_returns (get (historical_prices (base h)) []))) eqn:C;
    [| contradiction].
  destruct Hr as [<- | []]. now apply andb_true_iff in C.
Qed.

Lemma filter_nonempty_head {A : Type} (l : list (list A)) :
  Forall (fun r => nonempty r = true) l -> l <> [] -> filter nonempty l <> [].
Proof.
  destruct l as [| r l]; [congruence |]. intros F _.
  inversion F as [| ? ? Hr _]; subst. cbn [filter]. now rewrite Hr.
Qed.

(** C1, as the code has it: on the empty holdings list the result is the
    degenerate one (risk_score = 0, volatility = concentration =
    correlation = 0, the marker "Empty portfolio") and nothing is raised.  On
    a non-empty list whose total value is 0 nothing is raised either, but
    the result is the regular analysis, without a marker: every weight is 0,
    the concentration is 0, the total is 0, and the risk score is the one
    [calculate_risk_score] gives, a number of [[1, 10]]. *)
Theorem analyze_portfolio_risk_empty_or_zero (sqrt : float -> float)
    (hs : list holding) :
  analyze_portfolio_risk sqrt []
    = Ok (EmptyPortfolio (Fin 0) (Fin 0) (Fin 0) (Fin 0) "Empty portfolio") /\
  (hs <> [] -> feq (portfolio_total_value hs) (Fin 0) ->
   exists score breakdown total analysis,
     analyze_portfolio_risk sqrt hs = Ok (RiskAnalysis score breakdown total analysis) /\
     (exists q, score = Fin q /\ 1 <= q /\ q <= 10) /\
     feq (rb_concentration breakdown) (Fin 0) /\
     feq total (Fin 0) /\
     List.length analysis = List.length hs /\
     Forall (fun a => feq (ha_weight a) (Fin 0)) analysis).
Proof.
  split; [reflexivity |].
  intros NE Z. unfold analyze_portfolio_risk.
  destruct hs as [| h0 hs']; [congruence |].
  cbn [nonempty negb].
  remember (h0 :: hs') as hs eqn:Ehs. clear NE.
  destruct (portfolio_total_value hs) as [t | | |] eqn:T; cbn [feq] in Z;
    try contradiction.
  assert (P : (Fin t >? Fin 0)%float = false).
  { unfold fgt. cbn [flt]. apply Qlt_bool_false. lra. }
  rewrite P.
  rewrite (mapM_ok _ (fun h => {| base := h; value := holding_value h; weight := Fin 0 |}))
    by reflexivity.
  cbn [Py.bind]. rewrite !map_map. cbn [weight].
  rewrite calculate_hhi_zeros.
  match goal with |- context [calculate_correlation sqrt ?rs] =>
    destruct (calculate_correlation_ok sqrt rs) as (c & -> & _) end.
  { match goal with |- _ \/ ?l <> [] =>
      match l with filter nonempty ?rs => destruct rs eqn:R end end.
    - left. cbn. lia.
    - right. rewrite <- R. apply filter_nonempty_head; [| congruence].
      apply (all_returns_nonempty
               (map (fun h => {| base := h; value := holding_value h; weight := Fin 0 |}) hs)). }
  cbn [Py.bind].
  do 4 eexists. split; [reflexivity |].
  split; [apply calculate_risk_score_range |].
  cbn [rb_concentration].
  split; [now apply round_zero |].
  split; [now apply round_zero |].
  split; [now rewrite length_map |].
  apply Forall_map, Forall_forall. intros h _. cbn [ha_weight weight].
  apply round_zero. cbn. reflexivity.
Qed.

Lemma analyze_portfolio_risk_empty_or_zero_witness :
  portfolio_total_value [worthless_holding] = Fin 0 /\
  exists score breakdown total analysis,
    analyze_portfolio_risk Np.sqrt15 [worthless_holding]
      = Ok (RiskAnalysis score breakdown total analysis) /\
    (exists q, score = Fin q /\ 1 <= q /\ q <= 10) /\
    feq (rb_concentration breakdown) (Fin 0).
Proof.
  split; [reflexivity |].
  destruct (analyze_portfolio_risk_empty_or_zero Np.sqrt15 [worthless_holding])
    as (_ & H).
  destruct H as (s & b & t & a & E & R & C & _); [discriminate | reflexivity |].
  exists s, b, t, a. auto.
Defined.

(** C1 as stated fails: the total value of this one-holding portfolio is 0,
    and the result is not the degenerate one: it carries no empty-portfolio
    marker and its risk score is 1, not 0. *)
Lemma analyze_portfolio_risk_zero_total_counterexample :
  portfolio_total_value [worthless_holding] = Fin 0 /\
  analyze_portfolio_risk Np.sqrt15 [worthless_holding]
    <> Ok (EmptyPortfolio (Fin 0) (Fin 0) (Fin 0) (Fin 0) "Empty portfolio") /\
  exists score breakdown total analysis,
    analyze_portfolio_risk Np.sqrt15 [worthless_holding]
      = Ok (RiskAnalysis score breakdown total analysis) /\
    feq score (Fin 1).
Proof.
  split; [reflexivity |].
  split.
  - vm_compute. discriminate.
  - vm_compute. do 4 eexists. split; reflexivity.
Qed.

(** * Further properties of the code *)

(** ** calculations.py *)

(** The risk score is a finite number of [[1, 10]] for all inputs, infinities
    and NaN included, and for every weight tuple. *)
Theorem calculate_risk_score_bounded (v c r : float) (w : float * float * float) :
  exists q, calculate_risk_score v c r w = Fin q /\ 1 <= q /\ q <= 10.
Proof. apply calculate_risk_score_range. Qed.

(** The last two lines of [calculate_risk_score] on a finite scaled score
    that is already within [[1, 10]]: it is only rounded. *)
Lemma round_max_min_inside (x : Q) :
  1 <= x -> x <= 10 ->
  Py.round (Py.max2 (Fin 1) (Py.min2 (Fin 10) (Fin x))) 2 = Py.round (Fin x) 2
  \/ x == 1 /\ Py.max2 (Fin 1) (Py.min2 (Fin 10) (Fin x)) = Fin 1
  \/ x == 10 /\ Py.max2 (Fin 1) (Py.min2 (Fin 10) (Fin x)) = Fin 10.
Proof.
  intros L H. unfold Py.max2, Py.min2, fgt. qcases; qprop; auto.
  - right; left. split; [lra | reflexivity].
  - right; right. split; [lra | reflexivity].
  - exfalso. lra.
Qed.

Lemma round_feq (x y : float) (n : nat) : feq x y -> feq (Py.round x n) (Py.round y n).
Proof.
  destruct x as [a | | |], y as [b | | |]; cbn [feq Py.round]; try contradiction; auto.
  intro E. rewrite (round_half_even_comp (a * Py.pow10 n) (b * Py.pow10 n)).
  - reflexivity.
  - now rewrite E.
Qed.

Lemma round_Z (z : Z) (n : nat) : feq (Py.round (Fin (inject_Z z)) n) (Fin (inject_Z z)).
Proof.
  cbn [feq Py.round]. pose proof (pow10_pos n) as P.
  rewrite (round_half_even_comp _ (inject_Z (z * 10 ^ Z.of_nat n))).
  - rewrite round_half_even_Z. unfold Py.pow10. rewrite inject_Z_mult.
    fold (Py.pow10 n). field. lra.
  - unfold Py.pow10. now rewrite inject_Z_mult.
Qed.

(** The score of a finite scaled value [x] of [[1, 10]] is that of any value
    equal to it. *)
Lemma score_of_scaled (x : Q) (z : Z) :
  x == inject_Z z -> (1 <= z <= 10)%Z ->
  feq (Py.round (Py.max2 (Fin 1) (Py.min2 (Fin 10) (Fin x))) 2) (Fin (inject_Z z)).
Proof.
  intros E [L H]. rewrite Zle_Qle in L, H. change (inject_Z 1) with 1 in L.
  change (inject_Z 10) with 10 in H.
  destruct (round_max_min_inside x) as [R | [[X R] | [X R]]]; try lra; rewrite R.
  - transitivity (Py.round (Fin (inject_Z z)) 2); [now apply round_feq | apply round_Z].
  - transitivity (Fin 1); [apply (round_Z 1 2) |]. cbn [feq]. lra.
  - transitivity (Fin 10); [apply (round_Z 10 2) |]. cbn [feq]. lra.
Qed.

(** Volatility is capped at 100%: a volatility above 1 (+inf included)
    scores as 1.  With finite weights, all-zero inputs give the lowest score
    1; with weights that are not negative and sum to 1, all-one inputs give
    the highest score 10. *)
Theorem calculate_risk_score_cap_and_extremes (v c r : float)
    (w : float * float * float) (a b d : Q) :
  ((Fin 1 <? v)%float = true ->
   calculate_risk_score v c r w = calculate_risk_score (Fin 1) c r w) /\
  feq (calculate_risk_score (Fin 0) (Fin 0) (Fin 0) (Fin a, Fin b, Fin d)) (Fin 1) /\
  (0 <= a -> 0 <= b -> 0 <= d -> a + b + d == 1 ->
   feq (calculate_risk_score (Fin 1) (Fin 1) (Fin 1) (Fin a, Fin b, Fin d)) (Fin 10)).
Proof.
  split; [| split].
  - intro H. destruct w as [[w1 w2] w3]. unfold calculate_risk_score.
    unfold Py.min2 at 2 4. rewrite H. reflexivity.
  - unfold calculate_risk_score.
    replace (Py.min2 (Fin 0) (Fin 1)) with (Fin 0) by reflexivity.
    cbn [fmul fadd]. apply (score_of_scaled _ 1); [| lia].
    change (inject_Z 1) with 1. ring.
  - intros _ _ _ S. unfold calculate_risk_score.
    replace (Py.min2 (Fin 1) (Fin 1)) with (Fin 1) by reflexivity.
    cbn [fmul fadd]. apply (score_of_scaled _ 10); [| lia].
    change (inject_Z 10) with 10. ring_simplify.
    setoid_replace (9 * a + 9 * b + 9 * d + 1) with (9 * (a + b + d) + 1) by ring.
    rewrite S. reflexivity.
Qed.

Lemma calculate_risk_score_cap_and_extremes_witness :
  calculate_risk_score (Fin 3) (Fin (1 # 2)) (Fin (1 # 4)) default_weights
  = calculate_risk_score (Fin 1) (Fin (1 # 2)) (Fin (1 # 4)) default_weights /\
  feq (calculate_risk_score (Fin 1) (Fin 1) (Fin 1) default_weights) (Fin 10).
Proof.
  destruct (calculate_risk_score_cap_and_extremes (Fin 3) (Fin (1 # 2)) (Fin (1 # 4))
              default_weights (5 # 10) (3 # 10) (2 # 10)) as (C & _ & T).
  split; [apply C; reflexivity | apply T; (discriminate || reflexivity)].
Defined.

(** *** A single position *)

Lemma Qsum_sq_div (t : Q) (ws : list Q) :
  ~ t == 0 ->
  Qsum (map (fun w => (w / t) * (w / t)) ws) == Qsum (map Qsq ws) / (t * t).
Proof.
  intro T. induction ws as [| x ws IH]; cbn [map].
  - unfold Qsum. cbn [fold_left]. field. exact T.
  - rewrite !Qsum_cons, IH. unfold Qsq. field. exact T.
Qed.

Lemma hhi_Q_positive_total (ws : list Q) :
  0 < Qsum ws -> hhi_Q ws == Qsum (map Qsq ws) / (Qsum ws * Qsum ws).
Proof.
  intro T. unfold hhi_Q. cbv zeta.
  destruct (Qlt_bool 0 (Qsum ws)) eqn:P.
  - apply Qsum_sq_div. lra.
  - apply Qlt_bool_false in P. lra.
Qed.

Lemma Qsum_app (l1 l2 : list Q) : Qsum (l1 ++ l2) == Qsum l1 + Qsum l2.
Proof.
  induction l1 as [| x l1 IH]; cbn [app].
  - unfold Qsum at 2. cbn [fold_left]. lra.
  - rewrite !Qsum_cons, IH. lra.
Qed.

Lemma Qsum_repeat (w : Q) (n : nat) :
  Qsum (repeat w n) == inject_Z (Z.of_nat n) * w.
Proof.
  induction n as [| n IH]; cbn [repeat].
  - unfold Qsum. cbn [fold_left]. change (inject_Z (Z.of_nat 0)) with 0. lra.
  - rewrite Qsum_cons, IH, Nat2Z.inj_succ. unfold Z.succ.
    rewrite inject_Z_plus. change (inject_Z 1) with 1. lra.
Qed.

Lemma map_repeat {A B : Type} (f : A -> B) (x : A) (n : nat) :
  map f (repeat x n) = repeat (f x) n.
Proof. induction n as [| n IH]; cbn; [reflexivity | now rewrite IH]. Qed.

(** A portfolio with a single position that is worth something, its other
    positions being worth 0, has the highest concentration: exactly 1. *)
Theorem calculate_hhi_single_position (w : Q) (a b : nat) :
  0 < w ->
  feq (calculate_hhi (map Fin (repeat 0 a ++ w :: repeat 0 b))) (Fin 1).
Proof.
  intro W. rewrite calculate_hhi_Fin. cbn [feq].
  assert (S : Qsum (repeat 0 a ++ w :: repeat 0 b) == w).
  { rewrite Qsum_app, Qsum_cons, !Qsum_repeat. ring. }
  rewrite hhi_Q_positive_total by (rewrite S; exact W).
  rewrite S, map_app. cbn [map]. rewrite !map_repeat, Qsum_app, Qsum_cons, !Qsum_repeat.
  unfold Qsq. field. lra.
Qed.

Lemma calculate_hhi_single_position_witness :
  feq (calculate_hhi [Fin 0; Fin 25; Fin 0]) (Fin 1).
Proof.
  apply (calculate_hhi_single_position 25 1 1). reflexivity.
Defined.

(** *** Empty series do not count *)

Lemma filter_idem {A : Type} (p : A -> bool) (l : list A) :
  filter p (filter p l) = filter p l.
Proof.
  induction l as [| x l IH]; [reflexivity |]. cbn [filter].
  destruct (p x) eqn:P; [| exact IH]. cbn [filter]. now rewrite P, IH.
Qed.

Lemma filter_length_le {A : Type} (p : A -> bool) (l : list A) :
  (List.length (filter p l) <= List.length l)%nat.
Proof.
  induction l as [| x l IH]; [constructor |]. cbn [filter].
  destruct (p x); cbn [List.length]; lia.
Qed.

(** When at least two series are not empty, the empty ones have no effect:
    the result is the one for the non-empty series alone. *)
Theorem calculate_correlation_drops_empty (sqrt : float -> float)
    (rm : list (list float)) :
  (2 <= List.length (filter nonempty rm))%nat ->
  calculate_correlation sqrt rm = calculate_correlation sqrt (filter nonempty rm).
Proof.
  intro L. pose proof (filter_length_le nonempty rm) as M.
  unfold calculate_correlation. rewrite filter_idem.
  assert (A : (List.length rm <? 2)%nat = false) by (apply Nat.ltb_ge; lia).
  assert (B : (List.length (filter nonempty rm) <? 2)%nat = false)
    by (apply Nat.ltb_ge; lia).
  now rewrite A, B.
Qed.

Lemma calculate_correlation_drops_empty_witness :
  calculate_correlation Np.sqrt15 [[]; [Fin 1; Fin 2; Fin 4]; []; [Fin 3; Fin 1; Fin 2]]
  = calculate_correlation Np.sqrt15 [[Fin 1; Fin 2; Fin 4]; [Fin 3; Fin 1; Fin 2]].
Proof.
  apply (calculate_correlation_drops_empty Np.sqrt15
           [[]; [Fin 1; Fin 2; Fin 4]; []; [Fin 3; Fin 1; Fin 2]]).
  cbn. lia.
Defined.

(** *** The analysis never raises *)

Lemma fgt_zero_not_zero (t : float) :
  (t >? Fin 0)%float = true -> feqb t (Fin 0) = false.
Proof.
  unfold fgt. destruct t as [q | | |]; cbn [flt feqb]; try reflexivity; try discriminate.
  intro P. qprop. lra.
Qed.

Lemma weights_ok (total_value : float) (hs : list holding) :
  mapM (fun h =>
          let v := holding_value h in
          w <- (if (total_value >? Fin 0)%float then Py.truediv v total_value
                else Ok (Fin 0)) ;;
          Ok {| base := h; value := v; weight := w |}) hs
  = Ok (map (weighted total_value) hs).
Proof.
  apply mapM_ok. intro h. unfold weighted. cbv zeta.
  destruct (total_value >? Fin 0)%float eqn:P; [| reflexivity].
  now rewrite (truediv_ok _ _ (fgt_zero_not_zero _ P)).
Qed.

(** For every holdings list, whatever the prices, quantities and histories
    (missing keys, zero or non-finite numbers included), the analysis
    returns: it never raises.  On a non-empty list the result is the regular
    analysis with a risk score in [[1, 10]], a correlation risk in [[0, 1]],
    the rounded total value, and one entry per holding, in the order of the
    holdings and with their symbols. *)
Theorem analyze_portfolio_risk_never_raises (sqrt : float -> float) (hs : list holding) :
  (exists res, analyze_portfolio_risk sqrt hs = Ok res) /\
  (hs <> [] ->
   exists score breakdown analysis,
     analyze_portfolio_risk sqrt hs
       = Ok (RiskAnalysis score breakdown (Py.round (portfolio_total_value hs) 2) analysis) /\
     (exists q, score = Fin q /\ 1 <= q /\ q <= 10) /\
     (exists q, rb_correlation_risk breakdown = Fin q /\ 0 <= q /\ q <= 1) /\
     map ha_symbol analysis = map Calculations.symbol hs).
Proof.
  assert (N : hs <> [] ->
   exists score breakdown analysis,
     analyze_portfolio_risk sqrt hs
       = Ok (RiskAnalysis score breakdown (Py.round (portfolio_total_value hs) 2) analysis) /\
     (exists q, score = Fin q /\ 1 <= q /\ q <= 10) /\
     (exists q, rb_correlation_risk breakdown = Fin q /\ 0 <= q /\ q <= 1) /\
     map ha_symbol analysis = map Calculations.symbol hs).
  { intro NE. unfold analyze_portfolio_risk.
    destruct hs as [| h0 hs']; [congruence |].
    cbn [nonempty negb]. remember (h0 :: hs') as l eqn:El. clear NE El h0 hs'.
    rewrite weights_ok. cbn [Py.bind].
    match goal with |- context [calculate_correlation sqrt ?rs] =>
      destruct (calculate_correlation_ok sqrt rs) as (c & -> & q & -> & Q0 & Q1) end.
    { match goal with |- _ \/ ?f <> [] =>
        match f with filter nonempty ?rs => destruct rs eqn:R end end.
      - left. cbn. lia.
      - right. rewrite <- R. apply filter_nonempty_head; [| congruence].
        apply all_returns_nonempty. }
    cbn [Py.bind]. do 3 eexists. split; [reflexivity |].
    split; [apply calculate_risk_score_range |].
    cbn [rb_correlation_risk].
    split; [apply (round_range q 0 1 4); assumption |].
    rewrite !map_map. reflexivity. }
  split; [| exact N].
  destruct hs as [| h0 hs'].
  - eexists. reflexivity.
  - destruct N as (s & b & a & E & _); [discriminate |]. eexists. exact E.
Qed.

Lemma analyze_portfolio_risk_never_raises_witness :
  exists score breakdown analysis,
    analyze_portfolio_risk Np.sqrt15 [worthless_holding; worthless_holding]
      = Ok (RiskAnalysis score breakdown
              (Py.round (portfolio_total_value [worthless_holding; worthless_holding]) 2)
              analysis) /\
    map ha_symbol analysis = [Some "AAPL"%string; Some "AAPL"%string].
Proof.
  destruct (analyze_portfolio_risk_never_raises Np.sqrt15
              [worthless_holding; worthless_holding]) as (_ & H).
  destruct H as (s & b & a & E & _ & _ & M); [discriminate |].
  exists s, b, a. split; [exact E | exact M].
Defined.

(** ** scenario_agent.py *)

(** [simulate_scenario] raises in one situation only, an add-stock scenario
    whose new value is 0; in every other case, whatever the numbers, it
    returns a result that echoes the scenario type, the current value and
    the current risk score and whose new risk score is a finite number of
    [[1, 10]]. *)
Theorem simulate_scenario_raises_only_on_zero_add (ty sym : string)
    (cur risk change : float) :
  (ty = "add_stock"%string /\ feqb (cur + change)%float (Fin 0) = true ->
   simulate_scenario ty cur risk sym change = Raise ZeroDivisionError) /\
  (~ (ty = "add_stock"%string /\ feqb (cur + change)%float (Fin 0) = true) ->
   exists r,
     simulate_scenario ty cur risk sym change = Ok r /\
     scenario_type r = ty /\ current_value r = cur /\ current_risk_score r = risk /\
     exists q, new_risk_score r = Fin q /\ 1 <= q /\ q <= 10).
Proof.
  split.
  - intros [-> Z]. now apply simulate_scenario_add_stock_raises.
  - intro N.
    assert (E : exists r, simulate_scenario ty cur risk sym change = Ok r /\
                scenario_type r = ty /\ current_value r = cur /\
                current_risk_score r = risk).
    { unfold simulate_scenario.
      destruct (ty =? "add_stock")%string eqn:A.
      - apply String.eqb_eq in A.
        destruct (feqb (cur + change)%float (Fin 0)) eqn:Z; [tauto |].
        rewrite (truediv_ok _ _ Z). cbn [Py.bind]. eexists. split; [reflexivity |].
        cbn. subst ty. auto.
      - destruct (ty =? "remove_stock")%string;
          [| destruct (ty =? "increase_position")%string];
          (eexists; split; [reflexivity | cbn; auto]). }
    destruct E as (r & E & T & V & R). exists r. repeat split; try assumption.
    apply (simulate_scenario_new_risk _ _ _ _ _ _ E).
Qed.

Lemma simulate_scenario_raises_only_on_zero_add_witness :
  simulate_scenario "add_stock" (Fin 500) (Fin 9) "GME" (Fin (-500))
    = Raise ZeroDivisionError /\
  exists r,
    simulate_scenario "remove_stock" (Fin 500) NaN "GME" PInf = Ok r /\
    exists q, new_risk_score r = Fin q /\ 1 <= q /\ q <= 10.
Proof.
  split.
  - apply (simulate_scenario_raises_only_on_zero_add "add_stock" "GME" (Fin 500) (Fin 9)
             (Fin (-500))).
    split; reflexivity.
  - destruct (simulate_scenario_raises_only_on_zero_add "remove_stock" "GME" (Fin 500) NaN
                PInf) as (_ & H).
    destruct H as (r & E & _ & _ & _ & Q); [intros [D _]; discriminate |].
    exists r. split; [exact E | exact Q].
Defined.

(** A remove-stock scenario never raises.  Its risk delta is +0.3 when the
    current portfolio value is positive and 0 otherwise; the new risk score
    is round(min(10, max(1, current + delta)), 2); and the new value is
    max(0, current - change), which is never negative, where its analysis
    text quotes the difference that was not clamped. *)
Theorem simulate_scenario_remove_stock (sym : string) (cur risk change : float) :
  exists r,
    simulate_scenario "remove_stock" cur risk sym change = Ok r /\
    ((cur >? Fin 0)%float = true ->
     feq (risk_change r) (Fin (3 # 10)) /\ new_risk_score r = new_risk risk (Fin (3 # 10))) /\
    ((cur >? Fin 0)%float = false ->
     feq (risk_change r) (Fin 0) /\ new_risk_score r = new_risk risk (Fin 0)) /\
    new_value r = Py.max2 (Fin 0) (cur - change)%float /\
    (Fin 0 <=? new_value r)%float = true /\
    In (Num ",.2f" (cur - change)%float) (analysis r).
Proof.
  unfold simulate_scenario. cbn [String.eqb Ascii.eqb Bool.eqb].
  eexists. split; [reflexivity |].
  cbn [risk_change new_risk_score new_value analysis].
  split; [| split; [| split; [| split]]].
  - intros ->. split; reflexivity.
  - intros ->. split; reflexivity.
  - reflexivity.
  - apply max2_zero_nonneg.
  - cbn. auto.
Qed.

Lemma simulate_scenario_remove_stock_witness :
  exists r,
    simulate_scenario "remove_stock" (Fin 1000) (Fin 98 / Fin 10)%float "AAPL" (Fin 4000)
      = Ok r /\
    feq (new_risk_score r) (Fin 10) /\ feq (new_value r) (Fin 0).
Proof.
  destruct (simulate_scenario_remove_stock "AAPL" (Fin 1000) (Fin 98 / Fin 10)%float
              (Fin 4000)) as (r & E & P & _ & V & _).
  exists r. split; [exact E |].
  destruct (P eq_refl) as [_ N]. rewrite N, V. split; reflexivity.
Defined.

(** The new risk score grows with the risk delta, whatever the current
    score. *)
Lemma new_risk_mono (risk : float) (a b : Q) :
  a <= b -> (new_risk risk (Fin a) <=? new_risk risk (Fin b))%float = true.
Proof.
  intro L. unfold new_risk.
  destruct risk as [r | | |].
  - cbn [fadd].
    destruct (clamp_range 1 10 (Fin (r + a))) as (p & Ep & _); [lra |].
    destruct (clamp_range 1 10 (Fin (r + b))) as (q & Eq & _); [lra |].
    rewrite Ep, Eq. apply round_mono.
    revert Ep Eq. unfold Spec.clamp, Py.min2, Py.max2, fgt.
    qcases; intros Ep Eq; inversion Ep; inversion Eq; subst; qprop; lra.
  - cbn [fadd]. destruct (clamp_range 1 10 PInf) as (p & -> & _); [lra |].
    apply round_mono. lra.
  - cbn [fadd]. destruct (clamp_range 1 10 NInf) as (p & -> & _); [lra |].
    apply round_mono. lra.
  - cbn [fadd]. destruct (clamp_range 1 10 NaN) as (p & -> & _); [lra |].
    apply round_mono. lra.
Qed.

(** Whenever [run_multiple_scenarios] returns, the scenario it recommends is
    the first one, adding $10,000 of SPY: its new risk score, from the delta
    -0.8, is never above those of the other two, from +0.4 and -0.2, and the
    first of the lowest is taken. *)
Theorem run_multiple_scenarios_recommends_spy (pv rs lhv : float) (lh : string) :
  feqb (pv + Fin 10000)%float (Fin 0) = false ->
  exists s1 s2 s3,
    run_multiple_scenarios pv rs lh lhv =
      Ok {| scenarios := [s1; s2; s3];
            ScenarioAgent.recommendation := recommendation_naming s1 |} /\
    scenario s1 = [Lit "Add $"; Num ",.0f" (Fin 10000); Lit " to "; Str "SPY"] /\
    (new_risk_score s1 <=? new_risk_score s3)%float = true /\
    (new_risk_score s3 <=? new_risk_score s2)%float = true.
Proof.
  intro NZ. unfold run_multiple_scenarios.
  destruct (simulate_scenario_add_stock_ok "SPY" pv rs (Fin 10000) NZ)
    as (s1 & -> & T1 & _ & N1).
  assert (E2 : exists s2, simulate_scenario "increase_position" pv rs lh (Fin 5000) = Ok s2
                          /\ new_risk_score s2 = new_risk rs (Fin (4 # 10))).
  { eexists. split; reflexivity. }
  assert (E3 : exists s3, simulate_scenario "decrease_position" pv rs lh
                            (lhv * Fin (3 # 10))%float = Ok s3
                          /\ new_risk_score s3 = new_risk rs (Fin (- (2 # 10)))).
  { eexists. split; reflexivity. }
  destruct E2 as (s2 & -> & N2). destruct E3 as (s3 & -> & N3).
  change (Spec.add_stock_delta "SPY") with (Fin (- (8 # 10))) in N1.
  assert (L13 : (new_risk_score s1 <=? new_risk_score s3)%float = true).
  { rewrite N1, N3. apply new_risk_mono. lra. }
  assert (L32 : (new_risk_score s3 <=? new_risk_score s2)%float = true).
  { rewrite N3, N2. apply new_risk_mono. lra. }
  assert (L12 : (new_risk_score s1 <=? new_risk_score s2)%float = true).
  { rewrite N1, N2. apply new_risk_mono. lra. }
  cbn [Py.bind]. unfold get_scenario_recommendation, Py.min_by. cbn [fold_left].
  rewrite (fle_flt_false _ _ L12), (fle_flt_false _ _ L13). cbn [Py.bind].
  exists s1, s2, s3. repeat split; assumption.
Qed.

Lemma run_multiple_scenarios_recommends_spy_witness :
  exists s1 s2 s3,
    run_multiple_scenarios (Fin 250000) NaN "TSLA" (Fin 90000) =
      Ok {| scenarios := [s1; s2; s3];
            ScenarioAgent.recommendation := recommendation_naming s1 |} /\
    scenario s1 = [Lit "Add $"; Num ",.0f" (Fin 10000); Lit " to "; Str "SPY"].
Proof.
  destruct (run_multiple_scenarios_recommends_spy (Fin 250000) NaN (Fin 90000) "TSLA")
    as (s1 & s2 & s3 & E & T & _); [reflexivity |].
  exists s1, s2, s3. split; [exact E | exact T].
Defined.

(** ** stock_analyzer_agent.py *)

Lemma stock_risk_score_range (v w g : float) :
  exists q, StockRisk.stock_risk_score v w g = Fin q /\ 1 <= q /\ q <= 10.
Proof.
  unfold StockRisk.stock_risk_score. cbv zeta.
  match goal with |- context [Py.max2 (Fin 1) ?x] =>
    apply (clamp_range 1 10 x) end. lra.
Qed.

(** The level agrees with the score it is derived from. *)
Lemma risk_level_of_cases (q : Q) :
  (q <= 3 -> StockRisk.risk_level_of (Fin q) = "LOW"%string) /\
  (3 < q -> q <= 5 -> StockRisk.risk_level_of (Fin q) = "MODERATE"%string) /\
  (5 < q -> q <= 7 -> StockRisk.risk_level_of (Fin q) = "ELEVATED"%string) /\
  (7 < q -> StockRisk.risk_level_of (Fin q) = "HIGH"%string).
Proof.
  unfold StockRisk.risk_level_of. cbn [fle].
  repeat split; intros; qcases; qprop; try reflexivity; lra.
Qed.

(** [analyze_stock_risk] never raises, a purchase price of 0 included: the
    division is guarded and the gain/loss percentage is then 0.  The symbol
    is upper-cased, the risk score is a finite number of [[1, 10]] whatever
    the inputs, and the risk level is the one of that score: LOW up to 3,
    MODERATE up to 5, ELEVATED up to 7, HIGH above. *)
Theorem analyze_stock_risk_total (symbol : string)
    (quantity purchase_price current_price portfolio_weight : float) :
  exists r q,
    StockRisk.analyze_stock_risk symbol quantity purchase_price current_price
      portfolio_weight = Ok r /\
    StockRisk.sr_symbol r = Py.upper symbol /\
    StockRisk.sr_risk_score r = Fin q /\ 1 <= q /\ q <= 10 /\
    (q <= 3 -> StockRisk.sr_risk_level r = "LOW"%string) /\
    (3 < q -> q <= 5 -> StockRisk.sr_risk_level r = "MODERATE"%string) /\
    (5 < q -> q <= 7 -> StockRisk.sr_risk_level r = "ELEVATED"%string) /\
    (7 < q -> StockRisk.sr_risk_level r = "HIGH"%string) /\
    ((purchase_price >? Fin 0)%float = false ->
     feq (StockRisk.sr_gain_loss_percent r) (Fin 0)).
Proof.
  unfold StockRisk.analyze_stock_risk. cbv zeta.
  assert (G : exists g,
    (if (purchase_price >? Fin 0)%float
     then q <- Py.truediv (current_price - purchase_price)%float purchase_price ;;
          Ok (q * Fin 100)%float
     else Ok (Fin 0)) = Ok g /\
    ((purchase_price >? Fin 0)%float = false -> g = Fin 0)).
  { destruct (purchase_price >? Fin 0)%float eqn:P.
    - rewrite (truediv_ok _ _ (fgt_zero_not_zero _ P)). cbn [Py.bind].
      eexists. split; [reflexivity | discriminate].
    - eexists. split; reflexivity. }
  destruct G as (g & -> & G0). cbn [Py.bind].
  match goal with |- context [StockRisk.stock_risk_score ?v ?w g] =>
    destruct (stock_risk_score_range v w g) as (q & E & L & H) end.
  eexists. exists q. split; [reflexivity |].
  cbn [StockRisk.sr_symbol StockRisk.sr_risk_score StockRisk.sr_risk_level
       StockRisk.sr_gain_loss_percent].
  rewrite E. destruct (risk_level_of_cases q) as (A & B & C & D).
  repeat split; try assumption.
  intro P. rewrite (G0 P). apply (round_Z 0 2).
Qed.

Lemma analyze_stock_risk_total_witness :
  exists r,
    StockRisk.analyze_stock_risk "tsla" (Fin 10) (Fin 0) (Fin 250) (Fin 60) = Ok r /\
    StockRisk.sr_symbol r = "TSLA"%string /\
    StockRisk.sr_risk_level r = "HIGH"%string /\
    feq (StockRisk.sr_gain_loss_percent r) (Fin 0).
Proof.
  destruct (analyze_stock_risk_total "tsla" (Fin 10) (Fin 0) (Fin 250) (Fin 60))
    as (r & q & E & S & Q & _ & _ & _ & _ & _ & H & G).
  exists r. split; [exact E |]. split; [exact S |].
  split; [| apply G; reflexivity].
  apply H. pose proof E as E'. vm_compute in E'. injection E' as <-.
  vm_compute in Q. injection Q as <-. reflexivity.
Defined.

(** *** Sorting by risk *)

Lemma fle_trans (x y z : float) :
  (x <=? y)%float = true -> (y <=? z)%float = true -> (x <=? z)%float = true.
Proof.
  destruct x, y, z; simpl; try congruence. intros. qprop. lra.
Qed.

Section SortReverse.

Context {A : Type} (key : A -> float).

Lemma insert_desc_perm (x : A) (l : list A) :
  Permutation (x :: l) (PyStr.insert_desc key x l).
Proof.
  induction l as [| y l IH]; cbn [PyStr.insert_desc]; [reflexivity |].
  destruct (key x <? key y)%float; [| reflexivity].
  rewrite perm_swap. now constructor.
Qed.

Lemma sort_reverse_perm (l : list A) : Permutation l (PyStr.sort_reverse key l).
Proof.
  unfold PyStr.sort_reverse. induction l as [| x l IH]; cbn [fold_right]; [constructor |].
  rewrite <- insert_desc_perm. now constructor.
Qed.

Lemma insert_desc_HdRel (x y : A) (l : list A) :
  (desc key) y x -> HdRel (desc key) y l -> HdRel (desc key) y (PyStr.insert_desc key x l).
Proof.
  intros Hx H. destruct l as [| z l]; cbn [PyStr.insert_desc].
  - now constructor.
  - destruct (key x <? key z)%float; constructor; [now inversion H | exact Hx].
Qed.

Lemma insert_desc_sorted (x : A) (l : list A) :
  is_nan (key x) = false -> Forall (fun y => is_nan (key y) = false) l ->
  Sorted (desc key) l -> Sorted (desc key) (PyStr.insert_desc key x l).
Proof.
  intros Nx Nl S. induction S as [| y l S IH H]; cbn [PyStr.insert_desc].
  - constructor; constructor.
  - inversion Nl as [| ? ? Ny Nl']; subst.
    destruct (key x <? key y)%float eqn:C.
    + constructor; [now apply IH |].
      apply insert_desc_HdRel; [| exact H].
      unfold desc. destruct (key x), (key y); cbn in *; try congruence. qprop. lra.
    + constructor; [now constructor |]. constructor. unfold desc.
      now apply flt_false_fle.
Qed.

Lemma sort_reverse_sorted (l : list A) :
  Forall (fun y => is_nan (key y) = false) l ->
  StronglySorted (desc key) (PyStr.sort_reverse key l).
Proof.
  intro N. apply Sorted_StronglySorted.
  { intros a b c Hab Hbc. unfold desc in *. eapply fle_trans; eassumption. }
  unfold PyStr.sort_reverse. induction N as [| x l Nx N IH]; cbn [fold_right].
  - constructor.
  - apply insert_desc_sorted; [exact Nx | | exact IH].
    apply Forall_forall. intros y Hy. rewrite Forall_forall in N. apply N.
    apply Permutation_in with (l := fold_right (PyStr.insert_desc key) [] l);
      [| exact Hy].
    symmetry. apply sort_reverse_perm.
Qed.

End SortReverse.

Lemma mapM_Forall2 {A B : Type} (f : A -> result B) (l : list A) (ys : list B) :
  mapM f l = Ok ys -> Forall2 (fun x y => f x = Ok y) l ys.
Proof.
  revert ys. induction l as [| x l IH]; intros ys E; cbn [mapM] in E.
  - injection E as <-. constructor.
  - destruct (f x) as [y |] eqn:Fx; [| discriminate]. cbn [Py.bind] in E.
    destruct (mapM f l) as [ys' |]; [| discriminate]. cbn [Py.bind] in E.
    injection E as <-. constructor; [exact Fx | now apply IH].
Qed.

Lemma mapM_total {A B : Type} (f : A -> result B) (l : list A) :
  (forall x, exists y, f x = Ok y) -> exists ys, mapM f l = Ok ys.
Proof.
  intro T. induction l as [| x l (ys & IH)]; cbn [mapM].
  - eexists. reflexivity.
  - destruct (T x) as (y & ->). rewrite IH. eexists. reflexivity.
Qed.

Lemma count_le {A : Type} (p : A -> bool) (l : list A) :
  (PyStr.count p l <= List.length l)%nat.
Proof. apply filter_length_le. Qed.

(** One holding of [analyze_all_stocks]: nothing is raised, the score is a
    finite number of [[1, 10]], and without a positive purchase price and a
    positive current price the gain/loss is 0. *)
Lemma analyze_holding_total (total_value : float) (h : StockRisk.stock_holding) :
  exists a q,
    StockRisk.analyze_holding total_value h = Ok a /\
    StockRisk.sa_risk_score a = Fin q /\ 1 <= q /\ q <= 10 /\
    StockRisk.sa_risk_level a = StockRisk.risk_level_of (Fin q) /\
    (StockRisk.sh_purchase_price h = None \/ StockRisk.sh_current_price h = None ->
     feq (StockRisk.sa_gain_loss_percent a) (Fin 0)).
Proof.
  unfold StockRisk.analyze_holding. cbv zeta.
  assert (W : exists w,
    (if (total_value >? Fin 0)%float
     then q <- Py.truediv (get (StockRisk.sh_value h) (Fin 0)) total_value ;;
          Ok (q * Fin 100)%float
     else Ok (Fin 0)) = Ok w).
  { destruct (total_value >? Fin 0)%float eqn:P.
    - rewrite (truediv_ok _ _ (fgt_zero_not_zero _ P)). eexists. reflexivity.
    - eexists. reflexivity. }
  destruct W as (w & ->). cbn [Py.bind].
  set (pp := get (StockRisk.sh_purchase_price h) (Fin 0)).
  set (cp := get (StockRisk.sh_current_price h) (Fin 0)).
  assert (G : exists g,
    (if (pp >? Fin 0)%float && (cp >? Fin 0)%float
     then q <- Py.truediv (cp - pp)%float pp ;; Ok (q * Fin 100)%float
     else Ok (Fin 0)) = Ok g /\
    ((pp >? Fin 0)%float && (cp >? Fin 0)%float = false -> g = Fin 0)).
  { destruct (pp >? Fin 0)%float eqn:P; cbn [andb].
    - destruct (cp >? Fin 0)%float.
      + rewrite (truediv_ok _ _ (fgt_zero_not_zero _ P)). cbn [Py.bind].
        eexists. split; [reflexivity | discriminate].
      + eexists. split; reflexivity.
    - eexists. split; reflexivity. }
  destruct G as (g & -> & G0). cbn [Py.bind].
  match goal with |- context [StockRisk.stock_risk_score ?v ?x g] =>
    destruct (stock_risk_score_range v x g) as (q & E & L & H) end.
  eexists. exists q. split; [reflexivity |].
  cbn [StockRisk.sa_risk_score StockRisk.sa_risk_level StockRisk.sa_gain_loss_percent].
  rewrite E. repeat split; try assumption.
  intro M. rewrite G0; [apply (round_Z 0 1) |].
  unfold pp, cp. destruct M as [-> | ->]; cbn [get];
    [reflexivity | apply andb_false_r].
Qed.

Lemma analyze_holdings_scores (total_value : float)
    (hs : list StockRisk.stock_holding) (per : list StockRisk.stock_analysis) :
  mapM (StockRisk.analyze_holding total_value) hs = Ok per ->
  Forall (fun a => exists q, StockRisk.sa_risk_score a = Fin q /\ 1 <= q /\ q <= 10) per.
Proof.
  intro M. apply mapM_Forall2 in M.
  induction M as [| h a hs per E _ IH]; constructor; [| exact IH].
  destruct (analyze_holding_total total_value h) as (a' & q & E' & S & L & H & _).
  rewrite E in E'. injection E' as <-. now exists q.
Qed.

(** [analyze_all_stocks] on a list never raises.  It reports one analysis
    per holding, the analyses of the holdings reordered from the highest
    risk score down, each score a finite number of [[1, 10]]; the count of
    high-risk stocks and the count of sell recommendations never exceed the
    number of stocks. *)
Theorem analyze_all_stocks_sorted (holdings : list StockRisk.stock_holding) :
  exists report per,
    StockRisk.analyze_all_stocks holdings = Ok report /\
    mapM (StockRisk.analyze_holding
            (Py.sum (map (fun h => get (StockRisk.sh_value h) (Fin 0)) holdings)))
         holdings = Ok per /\
    Permutation per (StockRisk.stock_analyses report) /\
    StronglySorted (desc StockRisk.sa_risk_score) (StockRisk.stock_analyses report) /\
    Forall (fun a => exists q, StockRisk.sa_risk_score a = Fin q /\ 1 <= q /\ q <= 10)
      (StockRisk.stock_analyses report) /\
    StockRisk.stock_count report = List.length holdings /\
    (StockRisk.high_risk_count report <= StockRisk.stock_count report)%nat /\
    (StockRisk.sell_recommendations report <= StockRisk.stock_count report)%nat.
Proof.
  set (total := Py.sum (map (fun h => get (StockRisk.sh_value h) (Fin 0)) holdings)).
  destruct (mapM_total (StockRisk.analyze_holding total) holdings) as (per & M).
  { intro h. destruct (analyze_holding_total total h) as (a & _ & E & _).
    now exists a. }
  pose proof (analyze_holdings_scores _ _ _ M) as R.
  pose proof (mapM_Forall2 _ _ _ M) as F2. apply Forall2_length in F2.
  unfold StockRisk.analyze_all_stocks.
  destruct holdings as [| h0 hs].
  - cbn [nonempty negb]. cbn [mapM] in M. injection M as <-.
    eexists. exists []. cbn. repeat split; try constructor.
  - cbn [nonempty negb]. fold total. rewrite M. cbn [Py.bind].
    eexists. exists per. split; [reflexivity |]. split; [reflexivity |].
    cbn [StockRisk.stock_analyses StockRisk.stock_count StockRisk.high_risk_count
         StockRisk.sell_recommendations].
    pose proof (sort_reverse_perm StockRisk.sa_risk_score per) as P.
    split; [exact P |].
    split.
    { apply sort_reverse_sorted. eapply Forall_impl; [| exact R].
      intros a (q & -> & _). reflexivity. }
    split.
    { rewrite Forall_forall in *. intros a Ha. apply R.
      eapply Permutation_in; [symmetry; exact P | exact Ha]. }
    split; [rewrite <- (Permutation_length P); now symmetry |].
    split; apply count_le.
Qed.

Lemma round_upper (a : Q) (hi : Z) (n : nat) :
  a <= inject_Z hi -> exists r, Py.round (Fin a) n = Fin r /\ r <= inject_Z hi.
Proof.
  intro H. eexists; split; [reflexivity |].
  pose proof (pow10_pos n) as P.
  assert (E : inject_Z hi * Py.pow10 n == inject_Z (hi * 10 ^ Z.of_nat n)).
  { unfold Py.pow10. now rewrite inject_Z_mult. }
  assert (H' : a * Py.pow10 n <= inject_Z (hi * 10 ^ Z.of_nat n)) by (rewrite <- E; nra).
  apply round_half_even_mono in H'. rewrite round_half_even_Z in H'.
  rewrite Zle_Qle in H'. rewrite <- E in H'.
  apply Qmult_le_r with (z := Py.pow10 n); [exact P |].
  field_simplify; [| lra]. lra.
Qed.

(** Without a loss the three components add up to at most 5 + 3 + 0. *)
Lemma stock_risk_score_no_loss (v w : float) (q : Q) :
  StockRisk.stock_risk_score v w (Fin 0) = Fin q -> q <= 8.
Proof.
  unfold StockRisk.stock_risk_score. cbv zeta.
  replace (Fin 0 <? Fin (-10))%float with false by reflexivity.
  replace (Fin 0 <? Fin 0)%float with false by reflexivity.
  set (vr := Py.min2 (v * Fin 10)%float (Fin 5)).
  set (cr := Py.min2 (w / Fin 10)%float (Fin 3)).
  assert (V : vr = NaN \/ vr = NInf \/ exists x, vr = Fin x /\ x <= 5).
  { unfold vr, Py.min2. destruct v as [a | | |]; cbn [fmul flt].
    - qcases; qprop; right; right; eexists; (split; [reflexivity |]); lra.
    - right; right. exists 5. split; [reflexivity | lra].
    - right; left. reflexivity.
    - left. reflexivity. }
  assert (C : cr = NaN \/ cr = NInf \/ exists x, cr = Fin x /\ x <= 3).
  { unfold cr, Py.min2. destruct w as [a | | |]; cbn [fdiv flt].
    - replace (Qeq_bool 10 0) with false by reflexivity.
      qcases; qprop; right; right; eexists; (split; [reflexivity |]); lra.
    - replace (Qlt_bool 10 0) with false by reflexivity. cbn [flt].
      right; right. exists 3. split; [reflexivity | lra].
    - replace (Qlt_bool 10 0) with false by reflexivity. cbn [flt].
      right; left. reflexivity.
    - left. reflexivity. }
  clearbody vr cr.
  assert (S : (vr + cr + Fin 0)%float = NaN \/ (vr + cr + Fin 0)%float = NInf \/
              exists x, (vr + cr + Fin 0)%float = Fin x /\ x <= 8).
  { destruct V as [-> | [-> | (x & -> & X)]], C as [-> | [-> | (y & -> & Y)]];
      cbn [fadd]; auto.
    right; right. eexists. split; [reflexivity | lra]. }
  destruct S as [-> | [-> | (x & -> & X)]].
  - cbn. intro E. injection E as <-. lra.
  - cbn. intro E. injection E as <-. lra.
  - destruct (round_upper x 8 1) as (r & -> & R); [exact X |].
    change (inject_Z 8) with 8 in R.
    unfold Py.min2, Py.max2, fgt. qcases; intro E; injection E as <-; qprop; lra.
Qed.

(** A holding without a purchase price, like each entry [main.py] passes
    from the risk analysis, is analysed without gain or loss: the gain/loss
    percentage reported is 0 and the risk score is at most 8. *)
Theorem analyze_holding_without_purchase_price (total_value : float)
    (h : StockRisk.stock_holding) :
  StockRisk.sh_purchase_price h = None ->
  exists a q,
    StockRisk.analyze_holding total_value h = Ok a /\
    feq (StockRisk.sa_gain_loss_percent a) (Fin 0) /\
    StockRisk.sa_risk_score a = Fin q /\ 1 <= q /\ q <= 8.
Proof.
  intro N.
  destruct (analyze_holding_total total_value h) as (a & q & E & S & L & _ & _ & G).
  exists a, q. split; [exact E |]. split; [apply G; now left |].
  split; [exact S |]. split; [exact L |].
  revert E S. unfold StockRisk.analyze_holding. cbv zeta. rewrite N. cbn [get].
  replace (Fin 0 >? Fin 0)%float with false by reflexivity. cbn [andb].
  destruct (if (total_value >? Fin 0)%float then _ else _) as [w |]; [| discriminate].
  cbn [Py.bind]. intros E S. injection E as <-.
  cbn [StockRisk.sa_risk_score] in S. now apply stock_risk_score_no_loss in S.
Qed.

Lemma analyze_holding_without_purchase_price_witness :
  exists a q,
    StockRisk.analyze_holding (Fin 1000)
      {| StockRisk.sh_symbol := Some "NVDA"%string;
         StockRisk.sh_value := Some (Fin 900);
         StockRisk.sh_weight := Some (Fin 90);
         StockRisk.sh_individual_volatility := Some (Fin 2);
         StockRisk.sh_purchase_price := None;
         StockRisk.sh_current_price := None;
         StockRisk.sh_quantity := None |} = Ok a /\
    StockRisk.sa_risk_score a = Fin q /\ q <= 8.
Proof.
  destruct (analyze_holding_without_purchase_price (Fin 1000)
      {| StockRisk.sh_symbol := Some "NVDA"%string;
         StockRisk.sh_value := Some (Fin 900);
         StockRisk.sh_weight := Some (Fin 90);
         StockRisk.sh_individual_volatility := Some (Fin 2);
         StockRisk.sh_purchase_price := None;
         StockRisk.sh_current_price := None;
         StockRisk.sh_quantity := None |}) as (a & q & E & _ & S & _ & Q);
    [reflexivity |].
  exists a, q. auto.
Defined.

(** ** risk_analyzer_agent.py *)

Lemma risk_level_of_mono (x y : float) :
  (x <=? y)%float = true ->
  (level_rank (StockRisk.risk_level_of x) <= level_rank (StockRisk.risk_level_of y))%nat.
Proof.
  unfold StockRisk.risk_level_of.
  destruct x as [a | | |], y as [b | | |]; cbn [fle]; try discriminate; intro L;
    qcases; qprop; cbn; try lia; lra.
Qed.

(** [analyze_risk] echoes the score and classifies it with the thresholds the
    stock analyzer uses (LOW up to 3, MODERATE up to 5, ELEVATED up to 7,
    HIGH above); the level never decreases when the score increases; and a
    NaN score, for which no comparison holds, is classified HIGH. *)
Theorem analyze_risk_levels (data : string) (v c r x y : float) :
  RiskAnalyzerAgent.risk_score (RiskAnalyzerAgent.analyze_risk data v c r x) = x /\
  RiskAnalyzerAgent.risk_level (RiskAnalyzerAgent.analyze_risk data v c r x)
    = StockRisk.risk_level_of x /\
  ((x <=? y)%float = true ->
   (level_rank (RiskAnalyzerAgent.risk_level (RiskAnalyzerAgent.analyze_risk data v c r x))
    <= level_rank
         (RiskAnalyzerAgent.risk_level (RiskAnalyzerAgent.analyze_risk data v c r y)))%nat) /\
  RiskAnalyzerAgent.risk_level (RiskAnalyzerAgent.analyze_risk data v c r NaN)
    = "HIGH"%string.
Proof.
  assert (E : forall s,
    RiskAnalyzerAgent.risk_level (RiskAnalyzerAgent.analyze_risk data v c r s)
    = StockRisk.risk_level_of s).
  { intro s. unfold RiskAnalyzerAgent.analyze_risk, StockRisk.risk_level_of.
    destruct (s <=? Fin 3)%float; [reflexivity |].
    destruct (s <=? Fin 5)%float; [reflexivity |].
    destruct (s <=? Fin 7)%float; reflexivity. }
  split; [| split; [apply E | split]].
  - unfold RiskAnalyzerAgent.analyze_risk.
    destruct (x <=? Fin 3)%float; [reflexivity |].
    destruct (x <=? Fin 5)%float; [reflexivity |].
    destruct (x <=? Fin 7)%float; reflexivity.
  - intro L. rewrite !E. now apply risk_level_of_mono.
  - reflexivity.
Qed.

Lemma analyze_risk_levels_witness :
  (level_rank (RiskAnalyzerAgent.risk_level
                 (RiskAnalyzerAgent.analyze_risk "" (Fin 0) (Fin 0) (Fin 0) (Fin 4)))
   <= level_rank (RiskAnalyzerAgent.risk_level
                    (RiskAnalyzerAgent.analyze_risk "" (Fin 0) (Fin 0) (Fin 0) (Fin 9))))%nat.
Proof.
  apply (analyze_risk_levels "" (Fin 0) (Fin 0) (Fin 0) (Fin 4) (Fin 9)). reflexivity.
Defined.

(** ** recommendation_agent.py *)

(** The list of recommendations is one or two profile-specific items followed
    by the quarterly REVIEW item, so the cut to five drops nothing.  A
    beginner is never told to SELL.  A HIGH priority item is present exactly
    when the risk score is above 6.  Every confidence is strictly between 0
    and 1. *)
Theorem generate_recommendations_shape (data profile conc : string) (rs : float) :
  let r := RecommendationAgent.generate_recommendations data profile rs conc in
  (exists base,
     RecommendationAgent.recommendations r =
       (base ++
        [ {| RecommendationAgent.action := "REVIEW";
             RecommendationAgent.stock := "Portfolio";
             RecommendationAgent.reason :=
               "Schedule quarterly portfolio review to assess performance and rebalance if needed";
             RecommendationAgent.confidence := Fin (95 # 100);
             RecommendationAgent.priority := "MEDIUM" |} ])%list /\
     (1 <= List.length base <= 2)%nat) /\
  ((PyStr.lower profile =? "beginner")%string = true ->
   Forall (fun x => RecommendationAgent.action x <> "SELL"%string)
     (RecommendationAgent.recommendations r)) /\
  existsb (fun x => (RecommendationAgent.priority x =? "HIGH")%string)
    (RecommendationAgent.recommendations r) = (rs >? Fin 6)%float /\
  Forall (fun x => exists q, RecommendationAgent.confidence x = Fin q /\ 0 < q /\ q < 1)
    (RecommendationAgent.recommendations r).
Proof.
  cbv zeta. unfold RecommendationAgent.generate_recommendations.
  destruct (PyStr.lower profile =? "beginner")%string, (rs >? Fin 6)%float;
    cbn [RecommendationAgent.recommendations app firstn].
  all: split; [eexists; split;
               [match goal with
                | |- [?a; ?b; ?c] = _ => instantiate (1 := [a; b])
                | |- [?a; ?c] = _ => instantiate (1 := [a])
                end; reflexivity | cbn; lia] |].
  all: split; [intro B; try discriminate B; repeat constructor; cbn; discriminate |].
  all: split; [reflexivity |].
  all: repeat constructor; eexists; (split; [reflexivity |]); split; reflexivity.
Qed.

Lemma generate_recommendations_shape_witness :
  Forall (fun x => RecommendationAgent.action x <> "SELL"%string)
    (RecommendationAgent.recommendations
       (RecommendationAgent.generate_recommendations "" "Beginner" (Fin 9) "")).
Proof.
  apply (generate_recommendations_shape "" "Beginner" "" (Fin 9)). reflexivity.
Defined.

(** ** alert_agent.py *)

(** Whatever the portfolio text, the profile and the clock, the report
    holds at most six alerts, so the cut to ten drops none; every alert is
    in exactly one of the three priority lists; the MARKET_UPDATE alert is
    always the last one; and a beginner is never shown the SECTOR_WATCH
    alert. *)
Theorem compile_all_alerts_report (now1 now2 now3 now4 now5 : AlertAgent.datetime)
    (data profile : string) :
  let r := AlertAgent.compile_all_alerts now1 now2 now3 now4 now5 data profile in
  (1 <= AlertAgent.total_alerts r <= 6)%nat /\
  List.length (AlertAgent.alerts r) = AlertAgent.total_alerts r /\
  (List.length (AlertAgent.high_priority r) + List.length (AlertAgent.medium_priority r)
   + List.length (AlertAgent.low_priority r))%nat = AlertAgent.total_alerts r /\
  (exists pre,
     AlertAgent.alerts r =
       (pre ++ [ {| AlertAgent.type := "MARKET_UPDATE"; AlertAgent.severity := "INFO";
                    AlertAgent.message := "Regular portfolio monitoring recommended";
                    AlertAgent.action := "Review portfolio performance monthly" |} ])%list) /\
  ((PyStr.lower profile =? "beginner")%string = true ->
   Forall (fun a => AlertAgent.type a <> "SECTOR_WATCH"%string) (AlertAgent.alerts r)).
Proof.
  cbv zeta. unfold AlertAgent.compile_all_alerts, AlertAgent.check_rebalancing_need,
    AlertAgent.detect_tax_loss_harvesting, AlertAgent.generate_market_alerts.
  destruct (PyStr.contains "NVDA" (Py.upper data) || PyStr.contains "TSLA" (Py.upper data)),
    (PyStr.contains "loss" (PyStr.lower data) || PyStr.contains "negative" (PyStr.lower data)),
    (10 <=? AlertAgent.month now3)%nat, (AlertAgent.month now3 =? 12)%nat,
    (PyStr.contains "tech" (PyStr.lower data)),
    (PyStr.lower profile =? "beginner")%string;
    vm_compute;
    (split; [lia |]); (split; [reflexivity |]); (split; [reflexivity |]);
    (split; [| intro B; try discriminate B; repeat constructor; discriminate]).
  all: match goal with
       | |- exists pre, ?l = _ =>
           exists (removelast l); reflexivity
       end.
Qed.

Lemma compile_all_alerts_report_witness :
  Forall (fun a => AlertAgent.type a <> "SECTOR_WATCH"%string)
    (AlertAgent.alerts
       (AlertAgent.compile_all_alerts
          {| AlertAgent.year := 2025; AlertAgent.month := 12; AlertAgent.isoformat := "" |}
          {| AlertAgent.year := 2025; AlertAgent.month := 12; AlertAgent.isoformat := "" |}
          {| AlertAgent.year := 2025; AlertAgent.month := 12; AlertAgent.isoformat := "" |}
          {| AlertAgent.year := 2025; AlertAgent.month := 12; AlertAgent.isoformat := "" |}
          {| AlertAgent.year := 2025; AlertAgent.month := 12; AlertAgent.isoformat := "" |}
          "NVDA tech at a loss" "BEGINNER")).
Proof.
  apply (compile_all_alerts_report
          {| AlertAgent.year := 2025; AlertAgent.month := 12; AlertAgent.isoformat := "" |}
          {| AlertAgent.year := 2025; AlertAgent.month := 12; AlertAgent.isoformat := "" |}
          {| AlertAgent.year := 2025; AlertAgent.month := 12; AlertAgent.isoformat := "" |}
          {| AlertAgent.year := 2025; AlertAgent.month := 12; AlertAgent.isoformat := "" |}
          {| AlertAgent.year := 2025; AlertAgent.month := 12; AlertAgent.isoformat := "" |}
          "NVDA tech at a loss" "BEGINNER").
  reflexivity.
Defined.

(** The market alerts follow the calendar: an alert has priority (severity
    HIGH or MEDIUM) exactly from October on, and it is then the one tax
    planning alert, so no market alert is ever of HIGH severity; the
    year-end reminder is issued exactly in December, never without the tax
    planning alert before it; and the list always ends with the
    MARKET_UPDATE alert, so it is never empty. *)
Theorem generate_market_alerts_calendar (now_month now_stamp : AlertAgent.datetime)
    (sectors conditions : string) :
  let r := AlertAgent.generate_market_alerts now_month now_stamp sectors conditions in
  let has ty := exists a, In a (AlertAgent.m_alerts r) /\ AlertAgent.type a = ty in
  (AlertAgent.priority_alerts r <> [] <-> (10 <= AlertAgent.month now_month)%nat) /\
  Forall (fun a => AlertAgent.type a = "TAX_PLANNING"%string)
    (AlertAgent.priority_alerts r) /\
  (List.length (AlertAgent.priority_alerts r) <= 1)%nat /\
  Forall (fun a => AlertAgent.severity a <> "HIGH"%string) (AlertAgent.m_alerts r) /\
  (has "REBALANCE_REMINDER"%string <-> AlertAgent.month now_month = 12%nat) /\
  (has "REBALANCE_REMINDER"%string -> has "TAX_PLANNING"%string) /\
  (1 <= List.length (AlertAgent.m_alerts r) <= 4)%nat.
Proof.
  cbv zeta. unfold AlertAgent.generate_market_alerts.
  destruct (Nat.leb_spec 10 (AlertAgent.month now_month)) as [Q4 | Q4];
    destruct (Nat.eqb_spec (AlertAgent.month now_month) 12) as [D | D];
    try (exfalso; lia);
    destruct (PyStr.contains "tech" (PyStr.lower sectors));
    cbn [AlertAgent.m_alerts AlertAgent.priority_alerts app filter Py.str_in existsb
         AlertAgent.severity String.eqb Ascii.eqb Bool.eqb orb List.length].
  all: (split; [split; [(intros _; exact Q4) || (intro N; now contradiction N)
                    | intro L; discriminate || lia] |]).
  all: (split; [repeat constructor |]).
  all: (split; [lia |]).
  all: (split; [repeat constructor; discriminate |]).
  all: (split; [split |]).
  all: try (split; [| lia]).
  all: try (intros (a & I & T); cbn [In] in I;
            repeat (destruct I as [<- | I]; [cbn [AlertAgent.type] in T; try discriminate T |]);
            try contradiction; try exact D;
            try (eexists; split; [cbn [In]; left; reflexivity | reflexivity])).
  all: intro M; try contradiction.
  all: eexists; (split; [cbn [In]; right; left; reflexivity | reflexivity]).
Qed.

Lemma generate_market_alerts_calendar_witness :
  exists a,
    In a (AlertAgent.m_alerts
            (AlertAgent.generate_market_alerts
               {| AlertAgent.year := 2025; AlertAgent.month := 12;
                  AlertAgent.isoformat := "" |}
               {| AlertAgent.year := 2025; AlertAgent.month := 12;
                  AlertAgent.isoformat := "" |} "Tech" "normal")) /\
    AlertAgent.type a = "TAX_PLANNING"%string.
Proof.
  apply (generate_market_alerts_calendar
           {| AlertAgent.year := 2025; AlertAgent.month := 12; AlertAgent.isoformat := "" |}
           {| AlertAgent.year := 2025; AlertAgent.month := 12; AlertAgent.isoformat := "" |}
           "Tech" "normal").
  apply (generate_market_alerts_calendar
           {| AlertAgent.year := 2025; AlertAgent.month := 12; AlertAgent.isoformat := "" |}
           {| AlertAgent.year := 2025; AlertAgent.month := 12; AlertAgent.isoformat := "" |}
           "Tech" "normal").
  reflexivity.
Defined.

(** ** chat_agent.py *)

Lemma str_in_In (s : string) (l : list string) : Py.str_in s l = true <-> In s l.
Proof.
  unfold Py.str_in. rewrite existsb_exists. split.
  - intros (x & I & E). apply String.eqb_eq in E. now subst.
  - intro I. exists s. split; [exact I | apply String.eqb_refl].
Qed.

(** The chat tool for a sale and the remove-stock scenario compute the same
    figures: for every input the new portfolio value (never negative), the
    new risk score (a number of [1, 10]), the risk delta and the impact
    agree, and neither raises. *)
Theorem simulate_sell_stock_agrees_with_scenario (sym : string)
    (amount cur risk : float) :
  let s := ChatAgent.simulate_sell_stock sym amount cur risk in
  exists r,
    simulate_scenario "remove_stock" cur risk sym amount = Ok r /\
    new_value r = ChatAgent.s_new_portfolio_value s /\
    new_risk_score r = ChatAgent.s_new_risk_score s /\
    feq (risk_change r) (ChatAgent.s_risk_change s) /\
    impact r = ChatAgent.s_impact s /\
    (Fin 0 <=? ChatAgent.s_new_portfolio_value s)%float = true /\
    exists q, ChatAgent.s_new_risk_score s = Fin q /\ 1 <= q /\ q <= 10.
Proof.
  cbv zeta. unfold simulate_scenario, ChatAgent.simulate_sell_stock.
  cbn [String.eqb Ascii.eqb Bool.eqb].
  eexists; split; [reflexivity |].
  cbn [new_value new_risk_score risk_change impact ChatAgent.s_new_portfolio_value
       ChatAgent.s_new_risk_score ChatAgent.s_risk_change ChatAgent.s_impact].
  split; [reflexivity |]. split; [reflexivity |].
  split; [destruct (cur >? Fin 0)%float; reflexivity |].
  split; [reflexivity |]. split; [apply max2_zero_nonneg |].
  apply new_risk_range.
Qed.

(** The chat tool for a purchase divides by the new portfolio value as the
    add-stock scenario does: both raise ZeroDivisionError when current value
    + amount is zero, and only then.  Otherwise both return the same new
    value; the chat tool's new risk score is a number of [1, 10]; for TSLA,
    NVDA and COIN the two tools give the same new risk score, and for SPY,
    VTI and QQQ the chat tool takes 0.5 off where the scenario takes 0.8
    off, so its score is never the lower one. *)
Theorem simulate_add_stock_vs_scenario (sym : string) (amount cur risk : float) :
  (feqb (cur + amount)%float (Fin 0) = true ->
   ChatAgent.simulate_add_stock sym amount cur risk = Raise ZeroDivisionError /\
   simulate_scenario "add_stock" cur risk sym amount = Raise ZeroDivisionError) /\
  (feqb (cur + amount)%float (Fin 0) = false ->
   exists a s,
     ChatAgent.simulate_add_stock sym amount cur risk = Ok a /\
     simulate_scenario "add_stock" cur risk sym amount = Ok s /\
     ChatAgent.a_stock_symbol a = Py.upper sym /\
     ChatAgent.a_new_portfolio_value a = new_value s /\
     ChatAgent.a_new_position_weight a =
       Py.round ((amount / (cur + amount)) * Fin 100)%float 2 /\
     ChatAgent.a_new_risk_score a = new_risk risk (ChatAgent.a_risk_change a) /\
     (exists q, ChatAgent.a_new_risk_score a = Fin q /\ 1 <= q /\ q <= 10) /\
     (Spec.is_high_volatility sym = true ->
      ChatAgent.a_new_risk_score a = new_risk_score s) /\
     (Spec.is_index_fund sym = true ->
      ChatAgent.a_risk_change a = Fin (- (5 # 10)) /\
      (new_risk_score s <=? ChatAgent.a_new_risk_score a)%float = true)).
Proof.
  split.
  - intro Z. split; [| now apply simulate_scenario_add_stock_raises].
    unfold ChatAgent.simulate_add_stock.
    rewrite (truediv_raises _ _ Z).
    repeat match goal with |- context [if ?b then _ else _] => destruct b end;
      reflexivity.
  - intro NZ.
    destruct (simulate_scenario_add_stock_ok sym cur risk amount NZ)
      as (s & Es & _ & Vs & Rs).
    unfold ChatAgent.simulate_add_stock. rewrite (truediv_ok _ _ NZ).
    unfold Spec.add_stock_delta, Spec.is_high_volatility, Spec.is_index_fund in *.
    remember (Py.upper sym) as u eqn:U in *.
    destruct (Py.str_in u ["SPY"; "VTI"; "QQQ"; "VOO"; "IVV"; "VT"; "VEA"; "BND"; "AGG"])
      eqn:I1;
      [| destruct (Py.str_in u ["TSLA"; "NVDA"; "AMD"; "COIN"; "GME"; "AMC"; "MARA"; "RIOT"])
           eqn:I2;
         [| destruct (Py.str_in u ["AAPL"; "MSFT"; "GOOGL"; "GOOG"; "META"; "AMZN"; "JNJ";
                                   "PG"; "KO"; "WMT"]) eqn:I3]];
      cbn [Py.bind]; eexists; exists s;
      (split; [reflexivity |]); (split; [exact Es |]);
      cbn [ChatAgent.a_stock_symbol ChatAgent.a_new_portfolio_value
           ChatAgent.a_new_position_weight ChatAgent.a_new_risk_score
           ChatAgent.a_risk_change];
      (split; [reflexivity |]); (split; [now rewrite Vs |]);
      (split; [reflexivity |]); (split; [reflexivity |]);
      (split; [apply new_risk_range |]); rewrite Rs; clear U Es Vs Rs.
    + (* an index fund or ETF of the chat tool's list *)
      split.
      * intro HV. apply str_in_In in HV. simpl in HV.
        destruct HV as [<- | [<- | [<- | []]]]; discriminate I1.
      * intro IF. rewrite IF. split; [reflexivity |].
        apply (new_risk_mono risk (- (8 # 10)) (- (5 # 10))). lra.
    + (* a high-volatility stock of the chat tool's list *)
      split.
      * intro HV. rewrite HV.
        destruct (Py.str_in u ["SPY"; "VTI"; "QQQ"]) eqn:IF; [| reflexivity].
        apply str_in_In in IF. simpl in IF.
        destruct IF as [<- | [<- | [<- | []]]]; discriminate I1.
      * intro IF. apply str_in_In in IF. simpl in IF.
        destruct IF as [<- | [<- | [<- | []]]]; discriminate I1.
    + split.
      * intro HV. apply str_in_In in HV. simpl in HV.
        destruct HV as [<- | [<- | [<- | []]]]; discriminate I2.
      * intro IF. apply str_in_In in IF. simpl in IF.
        destruct IF as [<- | [<- | [<- | []]]]; discriminate I1.
    + split.
      * intro HV. apply str_in_In in HV. simpl in HV.
        destruct HV as [<- | [<- | [<- | []]]]; discriminate I2.
      * intro IF. apply str_in_In in IF. simpl in IF.
        destruct IF as [<- | [<- | [<- | []]]]; discriminate I1.
Qed.

Lemma simulate_add_stock_vs_scenario_witness :
  (ChatAgent.simulate_add_stock "spy" (Fin 0) (Fin 0) (Fin 5) = Raise ZeroDivisionError /\
   simulate_scenario "add_stock" (Fin 0) (Fin 5) "spy" (Fin 0) = Raise ZeroDivisionError) /\
  exists a s,
    ChatAgent.simulate_add_stock "spy" (Fin 10000) (Fin 100000) (Fin 5) = Ok a /\
    simulate_scenario "add_stock" (Fin 100000) (Fin 5) "spy" (Fin 10000) = Ok s /\
    feq (ChatAgent.a_new_risk_score a) (Fin (45 # 10)) /\
    feq (new_risk_score s) (Fin (42 # 10)).
Proof.
  split.
  - apply (simulate_add_stock_vs_scenario "spy" (Fin 0) (Fin 0) (Fin 5)). reflexivity.
  - destruct (simulate_add_stock_vs_scenario "spy" (Fin 10000) (Fin 100000) (Fin 5))
      as [_ H].
    destruct (H eq_refl) as (a & s & Ea & Es & _).
    exists a, s. split; [exact Ea |]. split; [exact Es |].
    vm_compute in Ea, Es. injection Ea as <-. injection Es as <-.
    split; reflexivity.
Defined.

(** The purchase tool on its own: the failure, and the score it returns. *)
Lemma chat_add_stock_raises (sym : string) (amount cur risk : float) :
  feqb (cur + amount)%float (Fin 0) = true ->
  ChatAgent.simulate_add_stock sym amount cur risk = Raise ZeroDivisionError.
Proof.
  intro Z. unfold ChatAgent.simulate_add_stock.
  rewrite (truediv_raises _ _ Z).
  repeat match goal with |- context [if ?b then _ else _] => destruct b end;
    reflexivity.
Qed.

Lemma chat_add_stock_ok (sym : string) (amount cur risk : float) :
  feqb (cur + amount)%float (Fin 0) = false ->
  exists a q,
    ChatAgent.simulate_add_stock sym amount cur risk = Ok a /\
    ChatAgent.a_new_risk_score a = Fin q /\ 1 <= q /\ q <= 10.
Proof.
  intro NZ. unfold ChatAgent.simulate_add_stock. rewrite (truediv_ok _ _ NZ).
  repeat match goal with |- context [if ?b then _ else _] => destruct b end;
    cbn [Py.bind];
    match goal with
    | |- exists a q, Ok ?r = Ok a /\ _ =>
        destruct (new_risk_range risk (ChatAgent.a_risk_change r)) as (q & E & L & U);
        exists r, q; split; [reflexivity |]; split; [exact E |]; split; assumption
    end.
Qed.

(** Comparing two purchases fails exactly when a single one does (current
    value + amount is zero).  Otherwise the two options are the two
    simulations; both new risk scores are numbers of [1, 10]; the
    recommendation names the first option only when its score is strictly
    lower, so a tie goes to the second option; the score it quotes is no
    higher than either; and the risk difference is the distance between the
    scores, between 0 and 9. *)
Theorem compare_investment_options_picks_lower (o1 o2 : string)
    (amount cur risk : float) :
  (feqb (cur + amount)%float (Fin 0) = true ->
   ChatAgent.compare_investment_options o1 o2 amount cur risk = Raise ZeroDivisionError) /\
  (feqb (cur + amount)%float (Fin 0) = false ->
   exists c r1 r2 q1 q2 m d,
     ChatAgent.compare_investment_options o1 o2 amount cur risk = Ok c /\
     ChatAgent.simulate_add_stock o1 amount cur risk = Ok r1 /\
     ChatAgent.simulate_add_stock o2 amount cur risk = Ok r2 /\
     ChatAgent.c_option1 c = r1 /\ ChatAgent.c_option2 c = r2 /\
     ChatAgent.a_new_risk_score r1 = Fin q1 /\ 1 <= q1 <= 10 /\
     ChatAgent.a_new_risk_score r2 = Fin q2 /\ 1 <= q2 <= 10 /\
     ChatAgent.c_recommendation c =
       [Str (Py.upper (if Qlt_le_dec q1 q2 then o1 else o2));
        Lit " would result in a lower risk score ("; Num "" (Fin m); Lit ")"] /\
     m <= q1 /\ m <= q2 /\ (m == q1 \/ m == q2) /\
     ChatAgent.c_risk_difference c = Fin d /\ d == Qabs (q1 - q2) /\ 0 <= d <= 9).
Proof.
  split.
  - intro Z. unfold ChatAgent.compare_investment_options.
    now rewrite (chat_add_stock_raises o1 _ _ _ Z).
  - intro NZ. unfold ChatAgent.compare_investment_options.
    destruct (chat_add_stock_ok o1 amount cur risk NZ) as (r1 & q1 & E1 & Q1 & L1 & U1).
    destruct (chat_add_stock_ok o2 amount cur risk NZ) as (r2 & q2 & E2 & Q2 & L2 & U2).
    rewrite E1, E2. cbn [Py.bind]. rewrite Q1, Q2.
    exists
      {| ChatAgent.c_comparison :=
           [Str (Py.upper o1); Lit " vs "; Str (Py.upper o2); Lit " - $";
            Num ",.0f" amount; Lit " investment"];
         ChatAgent.c_option1 := r1;
         ChatAgent.c_option2 := r2;
         ChatAgent.c_recommendation :=
           [Str (Py.upper (if (Fin q1 <? Fin q2)%float then o1 else o2));
            Lit " would result in a lower risk score (";
            Num "" (Py.min2 (Fin q1) (Fin q2)); Lit ")"];
         ChatAgent.c_risk_difference := fabs (Fin q1 - Fin q2)%float |},
      r1, r2, q1, q2, (if Qlt_bool q2 q1 then q2 else q1), (Qabs (q1 + - q2)).
    cbn [ChatAgent.c_option1 ChatAgent.c_option2 ChatAgent.c_recommendation
         ChatAgent.c_risk_difference].
    split; [reflexivity |]. split; [reflexivity |]. split; [reflexivity |].
    split; [reflexivity |]. split; [reflexivity |]. split; [exact Q1 |].
    split; [split; assumption |]. split; [exact Q2 |].
    split; [split; assumption |].
    split.
    { unfold Py.min2. cbn [flt].
      destruct (Qlt_le_dec q1 q2) as [L | G].
      - apply Qlt_bool_iff in L. rewrite L.
        destruct (Qlt_bool q2 q1); reflexivity.
      - assert (F : Qlt_bool q1 q2 = false) by (apply Qlt_bool_false; exact G).
        rewrite F. destruct (Qlt_bool q2 q1); reflexivity. }
    split; [destruct (Qlt_bool q2 q1) eqn:C; qprop; lra |].
    split; [destruct (Qlt_bool q2 q1) eqn:C; qprop; lra |].
    split; [destruct (Qlt_bool q2 q1); [right | left]; reflexivity |].
    split; [reflexivity |]. split; [reflexivity |].
    split; [apply Qabs_nonneg |].
    apply Qabs_Qle_condition. split; lra.
Qed.

Lemma compare_investment_options_picks_lower_witness :
  ChatAgent.compare_investment_options "spy" "tsla" (Fin 0) (Fin 0) (Fin 5)
    = Raise ZeroDivisionError /\
  exists c,
    ChatAgent.compare_investment_options "aapl" "msft" (Fin 1000) (Fin 9000) (Fin 5) = Ok c /\
    ChatAgent.c_recommendation c =
      [Str "MSFT"; Lit " would result in a lower risk score ("; Num "" (Fin (520 # 100));
       Lit ")"] /\
    feq (ChatAgent.c_risk_difference c) (Fin 0).
Proof.
  split.
  - apply (compare_investment_options_picks_lower "spy" "tsla" (Fin 0) (Fin 0) (Fin 5)).
    reflexivity.
  - destruct (compare_investment_options_picks_lower "aapl" "msft"
                (Fin 1000) (Fin 9000) (Fin 5)) as [_ H].
    destruct (H eq_refl) as (c & _ & _ & _ & _ & _ & _ & E & _).
    exists c. split; [exact E |].
    vm_compute in E. injection E as <-. split; reflexivity.
Defined.
